(** * kcore: connection handling and request dispatch

    A shallow embedding of the Go sources of kcore
    ([pkg/kafka/kafka_api.go], [pkg/kafka/kafka_connectian_handler.go],
    [pkg/server/kafka_connectian_handler.go], [pkg/server/server.go] and the
    two metadata managers) together with the properties of the
    connection loop, the dispatcher and the accept loop.

    Conventions.
    - Go integers are [Z]; a conversion that can wrap is written out
      ([int32], [uint32]).  [int] is taken to be 64 bits wide.
    - A byte slice is a [list byte].
    - A [net.Conn] is a world that answers every [Read] and every [Write]
      from a script and records every call in a trace.
    - [slog] calls of the connection loops are kept in the world;
      those of the pure request handlers are left out. *)

From Stdlib Require Import String ZArith List Lia Bool Arith.
From Stdlib Require Import Strings.Byte.
Import ListNotations.
Local Open Scope string_scope.
Local Open Scope list_scope.
Local Open Scope Z_scope.

(* ------------------------------------------------------------------ *)
(** ** Bytes and [encoding/binary] *)

Definition byte_to_Z (b : byte) : Z := Z.of_N (Byte.to_N b).

(** Go's [byte(v)] conversion: the low eight bits. *)
Definition byte_of_Z (v : Z) : byte :=
  match Byte.of_N (Z.to_N (v mod 256)) with
  | Some b => b
  | None => x00
  end.

Module BigEndian.

(** [binary.BigEndian.Uint32(b)]; the callers always pass a slice made
    with length 4, bytes beyond the slice read as zero here. *)
Definition Uint32 (b : list byte) : Z :=
  Z.lor (Z.lor (Z.lor (Z.shiftl (byte_to_Z (nth 0 b x00)) 24)
                      (Z.shiftl (byte_to_Z (nth 1 b x00)) 16))
               (Z.shiftl (byte_to_Z (nth 2 b x00)) 8))
        (byte_to_Z (nth 3 b x00)).

(** [binary.BigEndian.PutUint32] into a fresh 4-byte slice. *)
Definition PutUint32 (v : Z) : list byte :=
  [ byte_of_Z (Z.shiftr v 24); byte_of_Z (Z.shiftr v 16);
    byte_of_Z (Z.shiftr v 8); byte_of_Z v ].

End BigEndian.

(** Go's [int32(x)] and [uint32(x)] conversions of a wider integer. *)
Definition uint32 (x : Z) : Z := x mod 2 ^ 32.
Definition int32 (x : Z) : Z := (x + 2 ^ 31) mod 2 ^ 32 - 2 ^ 31.

(* ------------------------------------------------------------------ *)
(** ** Errors *)

Inductive error : Type :=
| io_EOF
| net_ErrClosed
| errors_New (msg : string)
| fmt_Errorf (msg : string) (wrapped : error)
| net_OpError (op : string) (wrapped : error).

(** [err == io.EOF] *)
Definition is_EOF (e : error) : bool :=
  match e with io_EOF => true | _ => false end.

(** [errors.Is(err, net.ErrClosed)]: walks the chain of wrapped errors. *)
Fixpoint errors_Is_ErrClosed (e : error) : bool :=
  match e with
  | net_ErrClosed => true
  | fmt_Errorf _ w => errors_Is_ErrClosed w
  | net_OpError _ w => errors_Is_ErrClosed w
  | _ => false
  end.

Definition result (A : Type) : Type := (error + A)%type.

(* ------------------------------------------------------------------ *)
(** ** The connection and the world around one handler *)

(** What the peer answers to one [Read] call. *)
Record ReadReply : Type := mkReadReply {
  rdata : list byte;
  rerr : option error
}.

Inductive Event : Type :=
| EvRead (buf : list byte) (n : nat) (err : option error)
| EvWrite (b : list byte) (err : option error)
| EvClose.

Inductive Level : Type := LevelDebug | LevelError.

Record World : Type := mkWorld {
  incoming : list ReadReply;        (* answers to the Read calls to come *)
  wreplies : list (option error);   (* answers to the Write calls to come *)
  trace : list Event;               (* calls made on the connection so far *)
  slog : list (Level * string)      (* records handed to the default logger *)
}.

Definition connect (inc : list ReadReply) (wr : list (option error)) : World :=
  mkWorld inc wr [] [].

(** Control flow of a function body over a state [S]: go on with a
    value, [return] from the function, or block for ever in a call. *)
Inductive Flow (A : Type) : Type :=
| Go (a : A)
| Ret
| Block.
Arguments Go {A} a.
Arguments Ret {A}.
Arguments Block {A}.

Definition M (S A : Type) : Type := S -> Flow A * S.

Definition ret {S A} (a : A) : M S A := fun w => (Go a, w).
Definition bind {S A B} (m : M S A) (f : A -> M S B) : M S B :=
  fun w => match m w with
           | (Go a, w') => f a w'
           | (Ret, w') => (Ret, w')
           | (Block, w') => (Block, w')
           end.
Definition return_ {S A} : M S A := fun w => (Ret, w).

Declare Scope go_scope.
Delimit Scope go_scope with go.
Notation "x <- m ;; k" := (bind m (fun x => k))
  (at level 100, m at next level, right associativity) : go_scope.
Notation "' p <- m ;; k" := (bind m (fun x => match x with p => k end))
  (at level 100, p pattern, m at next level, right associativity) : go_scope.
Notation "m ;;; k" := (bind m (fun _ => k))
  (at level 100, right associativity) : go_scope.

Definition record (e : Event) (w : World) : World :=
  mkWorld (incoming w) (wreplies w) (trace w ++ [e]) (slog w).

Definition slog_Debug (msg : string) : M World unit :=
  fun w => (Go tt, mkWorld (incoming w) (wreplies w) (trace w)
                           (slog w ++ [(LevelDebug, msg)])).
Definition slog_Error (msg : string) : M World unit :=
  fun w => (Go tt, mkWorld (incoming w) (wreplies w) (trace w)
                           (slog w ++ [(LevelError, msg)])).

(** [copy(b, data)] *)
Definition copy (b data : list byte) : list byte :=
  firstn (length b) data ++ skipn (length data) b.

(** [conn.Read(b)]: the peer's next answer decides the call; at most
    [len(b)] bytes are taken.  A script that has run out is a peer that
    has hung up: [0, io.EOF]. *)
Definition conn_Read (b : list byte)
  : M World (list byte * nat * option error) :=
  fun w =>
    match incoming w with
    | [] =>
        (Go (b, 0%nat, Some io_EOF),
         record (EvRead b 0 (Some io_EOF))
                (mkWorld [] (wreplies w) (trace w) (slog w)))
    | r :: rest =>
        let b' := copy b (rdata r) in
        let n := Nat.min (length b) (length (rdata r)) in
        (Go (b', n, rerr r),
         record (EvRead b' n (rerr r))
                (mkWorld rest (wreplies w) (trace w) (slog w)))
    end.

(** [conn.Write(b)]: all of [b] or an error. *)
Definition conn_Write (b : list byte) : M World (nat * option error) :=
  fun w =>
    match wreplies w with
    | [] =>
        (Go (length b, None),
         record (EvWrite b None) (mkWorld (incoming w) [] (trace w) (slog w)))
    | r :: rest =>
        (Go (match r with None => length b | Some _ => 0%nat end, r),
         record (EvWrite b r) (mkWorld (incoming w) rest (trace w) (slog w)))
    end.

(** [conn.Close()] *)
Definition conn_Close (w : World) : World := record EvClose w.

(** [make([]byte, n)] *)
Definition make (n : nat) : list byte := repeat x00 n.

(* ------------------------------------------------------------------ *)
(** ** The codec's data types ([sarama]) as the sources use them *)

Module sarama.

Module ApiVersionsRequest.
Record t : Type := mk {
  Version : Z;
  ClientSoftwareName : string;
  ClientSoftwareVersion : string
}.
End ApiVersionsRequest.

Module ApiVersionsResponseKey.
Record t : Type := mk {
  ApiKey : Z;
  MinVersion : Z;
  MaxVersion : Z
}.
End ApiVersionsResponseKey.

Module ApiVersionsResponse.
Record t : Type := mk {
  ApiKeys : list ApiVersionsResponseKey.t;
  Version : Z;
  ErrorCode : Z
}.
End ApiVersionsResponse.

(** The [ProtocolBody] interface: the two implementations the sources
    name, and any other one with what its [APIKey()] and
    [APIVersion()] methods answer. *)
Inductive ProtocolBody : Type :=
| ApiVersionsRequestBody (r : ApiVersionsRequest.t)
| ApiVersionsResponseBody (r : ApiVersionsResponse.t)
| OtherBody (key version : Z).

(** [body.APIKey()]; the ApiVersions bodies answer 18, the key the
    handlers of the sources compare with. *)
Definition APIKey (b : ProtocolBody) : Z :=
  match b with
  | ApiVersionsRequestBody _ => 18
  | ApiVersionsResponseBody _ => 18
  | OtherBody key _ => key
  end.

Module Request.
Record t : Type := mk {
  CorrelationID : Z;        (* int32 *)
  ClientID : string;
  Body : ProtocolBody
}.
End Request.

Module Response.
Record t : Type := mk {
  CorrelationID : Z;        (* int32 *)
  Version : Z;
  Body : ProtocolBody
}.
End Response.

Module ResponseHeaderStruct.
Record t : Type := mk {
  CorrelationID : Z;        (* int32 *)
  Length : Z                (* int32 *)
}.
End ResponseHeaderStruct.

(** Modelled from the spec: the encoders and decoders of the codec are
    not part of the sources.  The wire format of the spec is
    [Frame := u32_be length | payload(length bytes)] and
    [ResponsePayload := i32_be correlationId | body]; a 32-bit field
    is four bytes, most significant first. *)
Definition putInt32 (v : Z) : list byte := BigEndian.PutUint32 (uint32 v).

(** Modelled from the spec: reading such a field back. *)
Definition getInt32 (b : list byte) : Z := int32 (BigEndian.Uint32 b).

(** Modelled from the spec: [sarama.Encode(&respHeader, nil)] for a
    [ResponseHeaderStruct], the length field and then the correlation
    identifier. *)
Definition Encode_ResponseHeaderStruct (h : ResponseHeaderStruct.t)
  : result (list byte) :=
  inr (putInt32 (ResponseHeaderStruct.Length h)
       ++ putInt32 (ResponseHeaderStruct.CorrelationID h)).

(** Modelled from the spec: reading a response header back from the
    first eight bytes of a frame. *)
Definition Decode_ResponseHeaderStruct (b : list byte)
  : option ResponseHeaderStruct.t :=
  if (length b <? 8)%nat then None
  else Some (ResponseHeaderStruct.mk (getInt32 (firstn 4 (skipn 4 b)))
                                     (getInt32 (firstn 4 b))).

Section Codec.
(** The codec-defined encoding of a response body. *)
Variable encodeBody : ProtocolBody -> result (list byte).

(** Modelled from the spec: [sarama.Encode(resp, nil)] for a
    [Response], the frame length, the correlation identifier and
    the encoded body. *)
Definition Encode_Response (resp : Response.t) : result (list byte) :=
  match encodeBody (Response.Body resp) with
  | inl err => inl err
  | inr body =>
      inr (putInt32 (Z.of_nat (length body) + 4)
           ++ putInt32 (Response.CorrelationID resp)
           ++ body)
  end.
End Codec.

End sarama.

(* ------------------------------------------------------------------ *)
(** ** Running a loop *)

Inductive Outcome (S : Type) : Type :=
| Returned (w : S)      (* the function has returned *)
| Running (w : S).      (* in the loop still: out of fuel, or blocked *)
Arguments Returned {S} w.
Arguments Running {S} w.

Section Loop.
Context {S : Type}.
(** The body of a [for { ... }] loop: [Go tt] goes round again,
    [Ret] leaves the function. *)
Variable body : M S unit.

Fixpoint for_loop (fuel : nat) (w : S) : Outcome S :=
  match fuel with
  | O => Running w
  | Datatypes.S fuel' =>
      match body w with
      | (Go _, w') => for_loop fuel' w'
      | (Ret, w') => Returned w'
      | (Block, w') => Running w'
      end
  end.
End Loop.

(** [defer h.conn.Close()] around the loop of a connection handler. *)
Definition with_deferred_Close (body : M World unit) (fuel : nat) (w : World)
  : Outcome World :=
  match for_loop body fuel w with
  | Returned w' => Returned (conn_Close w')
  | Running w' => Running w'
  end.

(* ------------------------------------------------------------------ *)
(** ** Package [kafka] *)

Module kafka.
Import sarama.
Local Open Scope go_scope.

Definition ApiVersionsApiKey : Z := 18.

Section KafkaApi.
(** [req.Decode(&sarama.RealDecoder{Raw: encodedRequest})] and the
    body encoder are the codec's; the two constants are declared
    outside the sources at hand. *)
Variable Request_Decode : list byte -> result Request.t.
Variable encodeBody : ProtocolBody -> result (list byte).
Variable ResponseHeaderVersion : Z.
Variable ApiVersionsRequestVersion : Z.

Definition HandleApiVersions (correlationId : Z) (clientId : string)
           (request : ApiVersionsRequest.t)
  : result ApiVersionsResponse.t :=
  inr (ApiVersionsResponse.mk
         [ ApiVersionsResponseKey.mk ApiVersionsApiKey
                                     ApiVersionsRequestVersion
                                     ApiVersionsRequestVersion ]
         ApiVersionsRequestVersion
         0).

Definition dispatch (req : Request.t) : result Response.t :=
  let responseBody : result ProtocolBody :=
    if APIKey (Request.Body req) =? ApiVersionsApiKey then
      match Request.Body req with
      | ApiVersionsRequestBody apiVersionsReq =>
          match HandleApiVersions (Request.CorrelationID req)
                                  (Request.ClientID req)
                                  apiVersionsReq with
          | inl err =>
              inl (fmt_Errorf "error while handling ApiVersions request" err)
          | inr body => inr (ApiVersionsResponseBody body)
          end
      | _ => inl (errors_New "invalid request type")
      end
    else inl (errors_New "no handler found for request")
  in
  match responseBody with
  | inl err => inl err
  | inr responseBody =>
      inr (Response.mk (Request.CorrelationID req)
                       ResponseHeaderVersion
                       responseBody)
  end.

Definition Handle (encodedRequest : list byte) : result (list byte) :=
  match Request_Decode encodedRequest with
  | inl err => inl (fmt_Errorf "failed to decode request" err)
  | inr req =>
      match dispatch req with
      | inl err => inl (fmt_Errorf "failed to dispatch request" err)
      | inr resp =>
          match Encode_Response encodeBody resp with
          | inl err => inl (fmt_Errorf "failed to encode response" err)
          | inr encodedResp => inr encodedResp
          end
      end
  end.
End KafkaApi.

Section ConnectionHandler.
(** [h.requestHandler], any implementation of [RequestHandler]. *)
Variable requestHandler_Handle : list byte -> result (list byte).

(** One turn of the loop of [run]. *)
Definition iteration : M World unit :=
  let buffer := make 4 in
  slog_Debug "Reading request message size" ;;;
  '(buffer, n, err) <- conn_Read buffer ;;
  match err with
  | Some e =>
      if is_EOF e then return_
      else
        slog_Error "Failed to read request message size from connection" ;;;
        return_
  | None =>
      if negb (n =? 4)%nat then
        slog_Error "Failed to read request message size from connection" ;;;
        return_
      else
        let reqSize := BigEndian.Uint32 buffer in
        slog_Debug "Read request message size from connection" ;;;
        let buffer := make (Z.to_nat reqSize) in
        '(buffer, n, err) <- conn_Read buffer ;;
        match err with
        | Some _ =>
            slog_Error "Failed to read request from connection" ;;;
            return_
        | None =>
            if negb (Z.of_nat n =? reqSize) then
              slog_Error "Failed to read request from connection" ;;;
              return_
            else
              slog_Debug "Read request from connection" ;;;
              match requestHandler_Handle buffer with
              | inl _ =>
                  slog_Error "Failed to handle request" ;;;
                  return_
              | inr resp =>
                  '(_, err) <- conn_Write resp ;;
                  match err with
                  | Some _ =>
                      slog_Error "Failed to write response to connection" ;;;
                      return_
                  | None => ret tt
                  end
              end
        end
  end.

Definition run (fuel : nat) (w : World) : Outcome World :=
  with_deferred_Close iteration fuel w.

(** [h.conn = conn; h.run()] *)
Definition HandleConnection (fuel : nat) (conn : World) : Outcome World :=
  run fuel conn.
End ConnectionHandler.

End kafka.

(* ------------------------------------------------------------------ *)
(** ** Package [kafka], the earlier request handler [metadataManager] *)

Module metadata_manager.
Import sarama.

Definition ApiVersionsApiKey : Z := 18.

Section MetadataManager.
(** [sarama.Encode(&apiVersionResp, nil)] is the codec's. *)
Variable encodeBody : ProtocolBody -> result (list byte).

Definition Handle (req : Request.t) : result (list byte) :=
  let apiVersionResp :=
    ApiVersionsResponse.mk
      [ ApiVersionsResponseKey.mk ApiVersionsApiKey 0 3 ] 3 0 in
  encodeBody (ApiVersionsResponseBody apiVersionResp).

Definition ShouldHandle (req : Request.t) : bool :=
  APIKey (Request.Body req) =? ApiVersionsApiKey.
End MetadataManager.
End metadata_manager.

(* ------------------------------------------------------------------ *)
(** ** Package [server] *)

Module server.
Import sarama.
Local Open Scope go_scope.

Definition API_VERSIONS_API_KEY : Z := 18.

Section MetadataManager.
Variable encodeBody : ProtocolBody -> result (list byte).

(** [metadataManager.HandleRequest] *)
Definition HandleRequest (req : Request.t) : result (list byte) :=
  let apiVersionResp :=
    ApiVersionsResponse.mk
      [ ApiVersionsResponseKey.mk API_VERSIONS_API_KEY 0 3 ] 3 0 in
  encodeBody (ApiVersionsResponseBody apiVersionResp).
End MetadataManager.

Section ConnectionHandler.
(** [req.Decode] is the codec's; [h.metadataManager] is any
    implementation of [MetadataManager]. *)
Variable Request_Decode : list byte -> result Request.t.
Variable metadataManager_HandleRequest : Request.t -> result (list byte).

(** One turn of the loop of [run]. *)
Definition iteration : M World unit :=
  let buf := make 4 in
  slog_Debug "Reading request message size" ;;;
  '(buf, n, err) <- conn_Read buf ;;
  match err with
  | Some _ =>
      slog_Error "Failed to read request message size from connection" ;;;
      return_
  | None =>
      if negb (n =? 4)%nat then
        slog_Error "Failed to read request message size from connection" ;;;
        return_
      else
        let reqSize := BigEndian.Uint32 buf in
        slog_Debug "Read request message size from connection" ;;;
        let buf := make (Z.to_nat reqSize) in
        '(buf, n, err) <- conn_Read buf ;;
        match err with
        | Some _ =>
            slog_Error "Failed to read request from connection" ;;;
            return_
        | None =>
            if negb (Z.of_nat n =? reqSize) then
              slog_Error "Failed to read request from connection" ;;;
              return_
            else
              slog_Debug "Read request from connection" ;;;
              match Request_Decode buf with
              | inl _ =>
                  slog_Error "Failed to parse request" ;;;
                  return_
              | inr req =>
                  slog_Debug "Parsed request" ;;;
                  slog_Debug "Calling API manager" ;;;
                  match metadataManager_HandleRequest req with
                  | inl _ =>
                      slog_Error "Failed to handle request" ;;;
                      return_
                  | inr resp =>
                      slog_Debug "Sending response" ;;;
                      let respHeader :=
                        ResponseHeaderStruct.mk
                          (Request.CorrelationID req)
                          (int32 (Z.of_nat (length resp) + 8)) in
                      match Encode_ResponseHeaderStruct respHeader with
                      | inl _ =>
                          slog_Error "Failed to encode response header" ;;;
                          return_
                      | inr headerBuf =>
                          conn_Write headerBuf ;;;
                          conn_Write resp ;;;
                          ret tt
                      end
                  end
              end
        end
  end.

Definition run (fuel : nat) (w : World) : Outcome World :=
  with_deferred_Close iteration fuel w.

(** [h.conn = conn; h.run()] *)
Definition HandleConnection (fuel : nat) (conn : World) : Outcome World :=
  run fuel conn.
End ConnectionHandler.

(** *** [TCPServer] *)

(** An accepted connection, named by a number. *)
Definition ConnId : Type := nat.

(** The listening socket: what the [Accept] calls to come will
    answer, and whether the socket has been closed.  Once it is closed
    [Accept] answers [net.ErrClosed] inside a [*net.OpError], as the
    [net] package does; with nothing to answer it blocks. *)
Record Listener : Type := mkListener {
  backlog : list (result ConnId);
  lclosed : bool
}.

Inductive ServerEvent : Type :=
| EvAccept (r : result ConnId)
| EvHandleConnection (conn : ConnId)
| EvLog (lvl : Level) (msg : string).

Record ServerWorld : Type := mkServerWorld {
  socket : Listener;            (* the listener [net.Listen] returned *)
  s_l : bool;                   (* [s.l != nil] *)
  strace : list ServerEvent
}.

Definition emit (e : ServerEvent) (w : ServerWorld) : ServerWorld :=
  mkServerWorld (socket w) (s_l w) (strace w ++ [e]).

Definition srv_log (lvl : Level) (msg : string) : M ServerWorld unit :=
  fun w => (Go tt, emit (EvLog lvl msg) w).

(** [l.Accept()] *)
Definition l_Accept : M ServerWorld (result ConnId) :=
  fun w =>
    if lclosed (socket w) then
      let r := inl (net_OpError "accept" net_ErrClosed) in
      (Go r, emit (EvAccept r) w)
    else
      match backlog (socket w) with
      | [] => (Block, w)
      | r :: rest =>
          (Go r, emit (EvAccept r)
                      (mkServerWorld (mkListener rest false) (s_l w) (strace w)))
      end.

(** [go s.handlerFactory().HandleConnection(conn)] *)
Definition go_HandleConnection (conn : ConnId) : M ServerWorld unit :=
  fun w => (Go tt, emit (EvHandleConnection conn) w).

(** One turn of the loop of the goroutine that [Start] launches. *)
Definition accept_iteration : M ServerWorld unit :=
  r <- l_Accept ;;
  match r with
  | inl err =>
      if errors_Is_ErrClosed err then
        srv_log LevelDebug "Connection closed, can't accept new connections" ;;;
        return_
      else
        srv_log LevelError "Failed to accept TCP connection" ;;;
        return_
  | inr conn =>
      srv_log LevelDebug "Accepted new TCP connection" ;;;
      go_HandleConnection conn
  end.

Definition accept_loop (fuel : nat) (w : ServerWorld) : Outcome ServerWorld :=
  for_loop accept_iteration fuel w.

(** [s.l.Close()] *)
Definition l_Close (w : ServerWorld) : option error * ServerWorld :=
  if lclosed (socket w) then
    (Some (net_OpError "close" net_ErrClosed), w)
  else
    (None, mkServerWorld (mkListener (backlog (socket w)) true)
                         (s_l w) (strace w)).

(** [TCPServer.Stop] *)
Definition Stop (w : ServerWorld) : option error * ServerWorld :=
  let w := emit (EvLog LevelDebug "Stopping TCP server") w in
  if negb (s_l w) then
    (None, emit (EvLog LevelDebug "TCP server not running") w)
  else
    match l_Close w with
    | (Some err, w) =>
        (Some err, emit (EvLog LevelError "Failed to stop TCP server") w)
    | (None, w) =>
        (None, mkServerWorld (socket w) false (strace w))
    end.

End server.

(* ------------------------------------------------------------------ *)
(** ** Vocabulary of the properties *)

(** The two connection handlers of the sources, each with what it is
    constructed from. *)
Inductive Handler : Type :=
| KafkaHandler (requestHandler_Handle : list byte -> result (list byte))
| ServerHandler (Request_Decode : list byte -> result sarama.Request.t)
                (metadataManager_HandleRequest
                 : sarama.Request.t -> result (list byte)).

Definition iteration_of (h : Handler) : M World unit :=
  match h with
  | KafkaHandler handle => kafka.iteration handle
  | ServerHandler decode handleRequest => server.iteration decode handleRequest
  end.

Definition HandleConnection_of (h : Handler) (fuel : nat) (conn : World)
  : Outcome World :=
  match h with
  | KafkaHandler handle => kafka.HandleConnection handle fuel conn
  | ServerHandler decode handleRequest =>
      server.HandleConnection decode handleRequest fuel conn
  end.

(** The peer's next two answers are one whole frame: the four bytes of
    the length and then exactly that many bytes of payload. *)
Definition delivers_frame (w : World) (size payload : list byte)
           (rest : list ReadReply) : Prop :=
  incoming w = mkReadReply size None :: mkReadReply payload None :: rest
  /\ length size = 4%nat
  /\ Z.of_nat (length payload) = BigEndian.Uint32 size.

Section TraceShape.
Variable Handle : list byte -> result (list byte).

(** The calls of one complete turn of the loop of [kafka.run]. *)
Inductive exchange : list Event -> Prop :=
| exchange_complete (size payload resp : list byte) :
    length size = 4%nat ->
    Z.of_nat (length payload) = BigEndian.Uint32 size ->
    Handle payload = inr resp ->
    exchange [ EvRead size 4 None;
               EvRead payload (length payload) None;
               EvWrite resp None ].

(** The calls of a turn that leaves the loop. *)
Inductive aborted : list Event -> Prop :=
| aborted_size_error size n e :
    aborted [ EvRead size n (Some e) ]
| aborted_size_short size n :
    n <> 4%nat ->
    aborted [ EvRead size n None ]
| aborted_body_error size payload n e :
    aborted [ EvRead size 4 None; EvRead payload n (Some e) ]
| aborted_body_short size payload n :
    Z.of_nat n <> BigEndian.Uint32 size ->
    aborted [ EvRead size 4 None; EvRead payload n None ]
| aborted_handle size payload e :
    Handle payload = inl e ->
    aborted [ EvRead size 4 None; EvRead payload (length payload) None ]
| aborted_write size payload resp e :
    Handle payload = inr resp ->
    aborted [ EvRead size 4 None; EvRead payload (length payload) None;
              EvWrite resp (Some e) ].
End TraceShape.

Definition is_Close (e : Event) : bool :=
  match e with EvClose => true | _ => false end.

(** How many times the connection has been closed. *)
Definition count_Close (tr : list Event) : nat := length (filter is_Close tr).

Definition is_Read (e : Event) : bool :=
  match e with EvRead _ _ _ => true | _ => false end.

Definition is_Write_ok (e : Event) : bool :=
  match e with EvWrite _ None => true | _ => false end.

(** The calls to [Read], and the calls to [Write] that returned no
    error. *)
Definition count_reads (tr : list Event) : nat := length (filter is_Read tr).
Definition count_writes_ok (tr : list Event) : nat :=
  length (filter is_Write_ok tr).

(** All the bytes written to the connection, in order. *)
Fixpoint written (tr : list Event) : list byte :=
  match tr with
  | [] => []
  | EvWrite b _ :: tr' => b ++ written tr'
  | _ :: tr' => written tr'
  end.

(** A frame whose declared length is the number of bytes after the
    four bytes of the length. *)
Definition declared_length_matches (frame : list byte) : Prop :=
  BigEndian.Uint32 (firstn 4 frame) = Z.of_nat (length (skipn 4 frame)).

(** The reading discipline of short reads that keeps reading: after a
    first read that brought fewer than four bytes and no error, with
    more answers to come from the peer, the handler reads again. *)
Definition retries_short_size_read (h : Handler) : Prop :=
  forall (conn : World) (r : ReadReply) (rest : list ReadReply)
         (fuel : nat) (w' : World),
    incoming conn = r :: rest ->
    rerr r = None ->
    (length (rdata r) < 4)%nat ->
    rest <> [] ->
    HandleConnection_of h fuel conn = Returned w' ->
    exists b1 n1 b2 n2 e2 evs,
      trace w' = trace conn ++ EvRead b1 n1 None :: EvRead b2 n2 e2 :: evs.

(** What a handler writes in the turn in which it holds the payload of a
    request: the payload goes to the request handler, or to the decoder
    and then to the metadata manager. *)
Definition response_events (h : Handler) (payload : list byte)
           (wr : list (option error)) : list Event :=
  match h with
  | KafkaHandler handle =>
      match handle payload with
      | inl _ => []
      | inr resp => [ EvWrite resp (hd None wr) ]
      end
  | ServerHandler decode handleRequest =>
      match decode payload with
      | inl _ => []
      | inr req =>
          match handleRequest req with
          | inl _ => []
          | inr resp =>
              [ EvWrite (sarama.putInt32 (int32 (Z.of_nat (length resp) + 8))
                         ++ sarama.putInt32 (sarama.Request.CorrelationID req))
                        (hd None wr);
                EvWrite resp (hd None (tl wr)) ]
          end
      end
  end.

(* ------------------------------------------------------------------ *)
(** ** A stand-in codec and a few connections to run the handlers on *)

Module demo.
Import sarama.

(** A request payload here is the API key in one byte and the
    correlation identifier in four. *)
Definition Request_Decode (b : list byte) : result Request.t :=
  match b with
  | key :: c0 :: c1 :: c2 :: c3 :: _ =>
      inr (Request.mk
             (getInt32 [c0; c1; c2; c3]) "demo"
             (if byte_to_Z key =? 18
              then ApiVersionsRequestBody (ApiVersionsRequest.mk 3 "demo" "1")
              else OtherBody (byte_to_Z key) 0))
  | _ => inl (errors_New "insufficient data to decode packet")
  end.

(** A response body here is the error code and then the listed keys,
    one byte each. *)
Definition encodeBody (body : ProtocolBody) : result (list byte) :=
  match body with
  | ApiVersionsResponseBody r =>
      inr (byte_of_Z (ApiVersionsResponse.ErrorCode r)
           :: map (fun k => byte_of_Z (ApiVersionsResponseKey.ApiKey k))
                  (ApiVersionsResponse.ApiKeys r))
  | _ => inl (errors_New "cannot encode")
  end.

Definition kafkaApi : list byte -> result (list byte) :=
  kafka.Handle Request_Decode encodeBody 0 3.

Definition kafkaHandler : Handler := KafkaHandler kafkaApi.
Definition serverHandler : Handler :=
  ServerHandler Request_Decode (server.HandleRequest encodeBody).

(** An ApiVersions request (key 18) with correlation identifier 1. *)
Definition apiVersionsFrame : list ReadReply :=
  [ mkReadReply [x00; x00; x00; x05] None;
    mkReadReply [x12; x00; x00; x00; x01] None ].

(** A request with key 0, which no handler is registered for. *)
Definition produceFrame : list ReadReply :=
  [ mkReadReply [x00; x00; x00; x05] None;
    mkReadReply [x00; x00; x00; x00; x02] None ].

(** The length of a frame arriving in two pieces of two bytes. *)
Definition splitLength : list ReadReply :=
  [ mkReadReply [x00; x00] None; mkReadReply [x00; x05] None;
    mkReadReply [x12; x00; x00; x00; x01] None ].

Definition brokenPipe : error :=
  net_OpError "write" (errors_New "broken pipe").
End demo.

Module demo_server.
Import server.

Definition tooManyOpenFiles : error :=
  net_OpError "accept" (errors_New "too many open files").

(** A listening server with one failing accept ahead of a client. *)
Definition listening : ServerWorld :=
  mkServerWorld (mkListener [inl tooManyOpenFiles; inr 7%nat] false) true [].
End demo_server.

(* ------------------------------------------------------------------ *)
(** ** Vocabulary of the further properties *)

(** The messages of the records made at error level, in order. *)
Definition error_records (l : list (Level * string)) : list string :=
  flat_map (fun r => match fst r with
                     | LevelError => [snd r]
                     | LevelDebug => []
                     end) l.

(** What a client puts on the wire for one request: the length of the
    payload in four bytes, then the payload. *)
Definition frame_of (payload : list byte) : list ReadReply :=
  [ mkReadReply (BigEndian.PutUint32 (Z.of_nat (length payload))) None;
    mkReadReply payload None ].

(** A client that sends these requests one after the other and then
    hangs up. *)
Definition session (payloads : list (list byte)) : list ReadReply :=
  flat_map frame_of payloads.

Section ServerTraceShape.
Variable Request_Decode : list byte -> result sarama.Request.t.
Variable HandleRequest : sarama.Request.t -> result (list byte).

(** The calls of one complete turn of the loop of [server.run]: two
    reads and two writes, whatever the writes answer. *)
Inductive server_exchange : list Event -> Prop :=
| server_exchange_complete (size payload resp : list byte)
                           (req : sarama.Request.t) (r1 r2 : option error) :
    length size = 4%nat ->
    Z.of_nat (length payload) = BigEndian.Uint32 size ->
    Request_Decode payload = inr req ->
    HandleRequest req = inr resp ->
    server_exchange
      [ EvRead size 4 None;
        EvRead payload (length payload) None;
        EvWrite (sarama.putInt32 (int32 (Z.of_nat (length resp) + 8))
                 ++ sarama.putInt32 (sarama.Request.CorrelationID req)) r1;
        EvWrite resp r2 ].

(** The calls of a turn of [server.run] that leaves the loop. *)
Inductive server_aborted : list Event -> Prop :=
| server_aborted_size_error size n e :
    server_aborted [ EvRead size n (Some e) ]
| server_aborted_size_short size n :
    n <> 4%nat ->
    server_aborted [ EvRead size n None ]
| server_aborted_body_error size payload n e :
    server_aborted [ EvRead size 4 None; EvRead payload n (Some e) ]
| server_aborted_body_short size payload n :
    Z.of_nat n <> BigEndian.Uint32 size ->
    server_aborted [ EvRead size 4 None; EvRead payload n None ]
| server_aborted_decode size payload e :
    Request_Decode payload = inl e ->
    server_aborted [ EvRead size 4 None;
                     EvRead payload (length payload) None ]
| server_aborted_handle size payload req e :
    Request_Decode payload = inr req ->
    HandleRequest req = inl e ->
    server_aborted [ EvRead size 4 None;
                     EvRead payload (length payload) None ].
End ServerTraceShape.

(** The body that both metadata managers answer with. *)
Definition metadataManager_body : sarama.ApiVersionsResponse.t :=
  sarama.ApiVersionsResponse.mk
    [ sarama.ApiVersionsResponseKey.mk 18 0 3 ] 3 0.

(** The connections handed to a handler, in order. *)
Fixpoint handled_connections (tr : list server.ServerEvent)
  : list server.ConnId :=
  match tr with
  | [] => []
  | server.EvHandleConnection c :: tr' => c :: handled_connections tr'
  | _ :: tr' => handled_connections tr'
  end.

(** The records at error level in the trace of the server. *)
Fixpoint server_error_records (tr : list server.ServerEvent) : list string :=
  match tr with
  | [] => []
  | server.EvLog LevelError msg :: tr' => msg :: server_error_records tr'
  | _ :: tr' => server_error_records tr'
  end.

(* ------------------------------------------------------------------ *)
(** ** Package [server], [TCPServer.Start] *)

Module TCPServer.
Import server.

(** [NewTCPServer]: no listener yet, [s.l == nil].  The world has no
    socket before [net.Listen]; a closed one with nothing to accept
    stands for it. *)
Definition NewTCPServer : ServerWorld :=
  mkServerWorld (mkListener [] true) false [].

(** [TCPServer.Start]; [listened] is what [net.Listen] answers.  The
    last component says whether the accepting goroutine was launched;
    its loop is [server.accept_loop] on the world returned. *)
Definition Start (listened : result Listener) (w : ServerWorld)
  : option error * ServerWorld * bool :=
  let w := emit (EvLog LevelDebug "Starting TCP server") w in
  match listened with
  | inl err =>
      (Some err, emit (EvLog LevelError "Failed to start TCP server: %s") w,
       false)
  | inr l =>
      let w := emit (EvLog LevelDebug "TCP server listening") w in
      (None, mkServerWorld l true (strace w), true)
  end.
End TCPServer.

(* ------------------------------------------------------------------ *)
(** ** Package [server], the connection handler of the tests *)

Module server_test.
Local Open Scope go_scope.

Definition MESSAGE_SIZE : nat := 9.

(** One turn of the loop of [MockConnectionHandler.HandleConnection];
    [Go buf] is the call [h.messageHandler(buf, conn)]. *)
Definition iteration : M World (list byte) :=
  let buf := make MESSAGE_SIZE in
  '(buf, n, err) <- conn_Read buf ;;
  match err with
  | Some e =>
      if is_EOF e then
        slog_Debug "EOF reached, no more data to read from connection" ;;;
        return_
      else
        slog_Error "Failed to read from connection" ;;;
        return_
  | None =>
      if (n =? 0)%nat then return_
      else
        slog_Debug "Received message" ;;;
        ret buf
  end.

(** The loop, with the messages handed to the message handler so far. *)
Fixpoint loop (fuel : nat) (w : World) (messages : list (list byte))
  : Outcome World * list (list byte) :=
  match fuel with
  | O => (Running w, messages)
  | S fuel' =>
      match iteration w with
      | (Go buf, w') => loop fuel' w' (messages ++ [buf])
      | (Ret, w') => (Returned w', messages)
      | (Block, w') => (Running w', messages)
      end
  end.

(** [defer conn.Close()] around the loop. *)
Definition HandleConnection (fuel : nat) (conn : World)
  : Outcome World * list (list byte) :=
  match loop fuel conn [] with
  | (Returned w', messages) => (Returned (conn_Close w'), messages)
  | (Running w', messages) => (Running w', messages)
  end.
End server_test.

(** A read of fewer than [MESSAGE_SIZE] bytes in its buffer. *)
Definition padded (c : list byte) : list byte :=
  c ++ repeat x00 (server_test.MESSAGE_SIZE - length c).

(* ------------------------------------------------------------------ *)
(** ** More connections to run the handlers on *)

Module demo2.

Definition connectionReset : error :=
  net_OpError "read" (errors_New "connection reset by peer").

(** A request whose body answers key 18 without being an
    [ApiVersionsRequest]. *)
Definition mistyped : sarama.Request.t :=
  sarama.Request.mk 5 "demo" (sarama.OtherBody 18 0).

(** A handler that echoes the payload. *)
Definition echo (payload : list byte) : result (list byte) := inr payload.

(** A listener with three clients waiting. *)
Definition threeClients : server.ServerWorld :=
  server.mkServerWorld
    (server.mkListener [inr 1%nat; inr 2%nat; inr 3%nat] false) true [].

End demo2.

(* ================================================================== *)
(** * Properties *)

(** ** Bytes and big-endian words *)

Lemma byte_to_Z_range (b : byte) : 0 <= byte_to_Z b < 256.
Proof.
  unfold byte_to_Z. pose proof (Byte.to_N_bounded b) as H. lia.
Qed.

Lemma byte_to_of_Z (v : Z) : byte_to_Z (byte_of_Z v) = v mod 256.
Proof.
  unfold byte_to_Z, byte_of_Z.
  assert (Hr : 0 <= v mod 256 < 256) by (apply Z.mod_pos_bound; lia).
  destruct (Byte.of_N (Z.to_N (v mod 256))) as [b|] eqn:E.
  - apply Byte.to_of_N in E. rewrite E. apply Z2N.id. lia.
  - apply Byte.of_N_None_iff in E.
    apply N2Z.inj_lt in E. rewrite Z2N.id in E by lia. simpl in E. lia.
Qed.

Lemma land_shiftl_small (a b n : Z) :
  0 <= n -> 0 <= b < 2 ^ n -> Z.land (Z.shiftl a n) b = 0.
Proof.
  intros Hn Hb. apply Z.bits_inj'; intros i Hi.
  rewrite Z.land_spec, Z.bits_0.
  destruct (Z.ltb_spec i n) as [Hlt|Hge].
  - rewrite Z.shiftl_spec_low by lia. reflexivity.
  - destruct (Z.eq_dec b 0) as [->|Hnz].
    + rewrite Z.bits_0. apply andb_false_r.
    + rewrite (Z.bits_above_log2 b i), andb_false_r; [reflexivity|lia|].
      apply Z.lt_le_trans with n; [|lia].
      apply Z.log2_lt_pow2; lia.
Qed.

Lemma lor_shiftl_add (a b n : Z) :
  0 <= n -> 0 <= b < 2 ^ n -> Z.lor (Z.shiftl a n) b = a * 2 ^ n + b.
Proof.
  intros Hn Hb.
  rewrite <- Z.shiftl_mul_pow2 by lia.
  pose proof (land_shiftl_small a b n Hn Hb) as H0.
  rewrite <- Z.lxor_lor by exact H0.
  symmetry. apply Z.add_nocarry_lxor. exact H0.
Qed.

Lemma lor_mul_add (a b n : Z) :
  0 <= n -> 0 <= b < 2 ^ n -> Z.lor (a * 2 ^ n) b = a * 2 ^ n + b.
Proof.
  intros Hn Hb. rewrite <- lor_shiftl_add by assumption.
  rewrite Z.shiftl_mul_pow2 by lia. reflexivity.
Qed.

Lemma Uint32_arith (b0 b1 b2 b3 : byte) (rest : list byte) :
  BigEndian.Uint32 (b0 :: b1 :: b2 :: b3 :: rest)
  = byte_to_Z b0 * 2 ^ 24 + byte_to_Z b1 * 2 ^ 16
    + byte_to_Z b2 * 2 ^ 8 + byte_to_Z b3.
Proof.
  unfold BigEndian.Uint32; cbn [nth].
  pose proof (byte_to_Z_range b0). pose proof (byte_to_Z_range b1).
  pose proof (byte_to_Z_range b2). pose proof (byte_to_Z_range b3).
  rewrite !Z.shiftl_mul_pow2 by lia.
  rewrite (lor_mul_add _ _ 24) by lia.
  replace (byte_to_Z b0 * 2 ^ 24 + byte_to_Z b1 * 2 ^ 16)
    with ((byte_to_Z b0 * 2 ^ 8 + byte_to_Z b1) * 2 ^ 16) by lia.
  rewrite (lor_mul_add _ _ 16) by lia.
  replace ((byte_to_Z b0 * 2 ^ 8 + byte_to_Z b1) * 2 ^ 16 + byte_to_Z b2 * 2 ^ 8)
    with ((byte_to_Z b0 * 2 ^ 16 + byte_to_Z b1 * 2 ^ 8 + byte_to_Z b2) * 2 ^ 8)
    by lia.
  rewrite (lor_mul_add _ _ 8) by lia. lia.
Qed.

Lemma Uint32_range (b : list byte) : 0 <= BigEndian.Uint32 b < 2 ^ 32.
Proof.
  assert (H : forall b0 b1 b2 b3 : byte,
             0 <= BigEndian.Uint32 [b0; b1; b2; b3] < 2 ^ 32).
  { intros b0 b1 b2 b3. rewrite Uint32_arith.
    pose proof (byte_to_Z_range b0). pose proof (byte_to_Z_range b1).
    pose proof (byte_to_Z_range b2). pose proof (byte_to_Z_range b3). lia. }
  exact (H (nth 0 b x00) (nth 1 b x00) (nth 2 b x00) (nth 3 b x00)).
Qed.

Lemma Uint32_PutUint32 (v : Z) :
  0 <= v < 2 ^ 32 -> BigEndian.Uint32 (BigEndian.PutUint32 v) = v.
Proof.
  intros Hv. unfold BigEndian.PutUint32. rewrite Uint32_arith.
  rewrite !byte_to_of_Z, !Z.shiftr_div_pow2 by lia.
  change (2 ^ 24) with 16777216. change (2 ^ 16) with 65536.
  change (2 ^ 8) with 256. change (2 ^ 32) with 4294967296 in Hv.
  pose proof (Z.div_mod v 256 ltac:(lia)).
  pose proof (Z.div_mod (v / 256) 256 ltac:(lia)).
  pose proof (Z.div_mod (v / 256 / 256) 256 ltac:(lia)).
  rewrite (Z.mod_small (v / 16777216)) by
      (split; [apply Z.div_pos; lia | apply Z.div_lt_upper_bound; lia]).
  replace (v / 65536) with (v / 256 / 256)
    by (rewrite Z.div_div by lia; reflexivity).
  replace (v / 16777216) with (v / 256 / 256 / 256)
    by (rewrite !Z.div_div by lia; reflexivity).
  lia.
Qed.

Lemma length_PutUint32 (v : Z) : length (BigEndian.PutUint32 v) = 4%nat.
Proof. reflexivity. Qed.

Lemma int32_uint32 (v : Z) : - 2 ^ 31 <= v < 2 ^ 31 -> int32 (uint32 v) = v.
Proof.
  intros Hv. unfold int32, uint32.
  change (2 ^ 32) with 4294967296. change (2 ^ 31) with 2147483648 in *.
  rewrite Zplus_mod_idemp_l.
  rewrite Z.mod_small by lia. lia.
Qed.

Lemma uint32_int32 (v : Z) : uint32 (int32 v) = uint32 v.
Proof.
  unfold uint32, int32.
  rewrite Zminus_mod_idemp_l.
  replace (v + 2 ^ 31 - 2 ^ 31) with v by lia. reflexivity.
Qed.

Lemma getInt32_putInt32 (v : Z) (rest : list byte) :
  - 2 ^ 31 <= v < 2 ^ 31 ->
  sarama.getInt32 (firstn 4 (sarama.putInt32 v ++ rest)) = v.
Proof.
  intros Hv. unfold sarama.getInt32, sarama.putInt32.
  change (firstn 4 (BigEndian.PutUint32 (uint32 v) ++ rest))
    with (BigEndian.PutUint32 (uint32 v)).
  rewrite Uint32_PutUint32 by (unfold uint32; apply Z.mod_pos_bound; lia).
  apply int32_uint32; assumption.
Qed.

(** ** The connection primitives *)

Lemma length_copy (b data : list byte) : length (copy b data) = length b.
Proof.
  unfold copy. rewrite length_app, length_firstn, length_skipn. lia.
Qed.

Lemma length_make (n : nat) : length (make n) = n.
Proof. apply repeat_length. Qed.

Lemma copy_make_exact (data : list byte) :
  copy (make (length data)) data = data.
Proof.
  unfold copy. rewrite length_make, firstn_all, skipn_all2.
  - apply app_nil_r.
  - rewrite length_make. lia.
Qed.

Lemma conn_Read_spec (b : list byte) (w : World) :
  exists b' n err w',
    conn_Read b w = (Go (b', n, err), w')
    /\ trace w' = trace w ++ [EvRead b' n err]
    /\ wreplies w' = wreplies w
    /\ incoming w' = tl (incoming w)
    /\ (incoming w = [] -> err = Some io_EOF)
    /\ length b' = length b
    /\ (forall r rest, incoming w = r :: rest ->
        b' = copy b (rdata r)
        /\ n = Nat.min (length b) (length (rdata r))
        /\ err = rerr r).
Proof.
  unfold conn_Read. destruct (incoming w) as [|r rest] eqn:E.
  - eexists _, _, _, _.
    split; [reflexivity|]. do 5 (split; [auto|]). discriminate.
  - eexists _, _, _, _.
    split; [reflexivity|]. do 3 (split; [auto|]).
    split; [discriminate|]. split; [apply length_copy|].
    intros r' rest' [= <- <-]. auto.
Qed.

Lemma conn_Write_spec (b : list byte) (w : World) :
  exists n err w',
    conn_Write b w = (Go (n, err), w')
    /\ trace w' = trace w ++ [EvWrite b err]
    /\ incoming w' = incoming w
    /\ err = hd None (wreplies w)
    /\ wreplies w' = tl (wreplies w).
Proof.
  unfold conn_Write. destruct (wreplies w) as [|r rest] eqn:E.
  - eexists _, _, _. repeat split; auto.
  - eexists _, _, _. repeat split; auto.
Qed.

Lemma slog_Debug_eq (msg : string) (w : World) :
  exists w', slog_Debug msg w = (Go tt, w')
             /\ trace w' = trace w /\ incoming w' = incoming w
             /\ wreplies w' = wreplies w.
Proof. eexists; repeat split. Qed.

Lemma slog_Error_eq (msg : string) (w : World) :
  exists w', slog_Error msg w = (Go tt, w')
             /\ trace w' = trace w /\ incoming w' = incoming w
             /\ wreplies w' = wreplies w.
Proof. eexists; repeat split. Qed.

Ltac step_log :=
  match goal with
  | |- context [slog_Debug ?m ?w] =>
      let w' := fresh "w" in
      let Ht := fresh "Ht" in let Hi := fresh "Hi" in let Hw := fresh "Hw" in
      destruct (slog_Debug_eq m w) as (w' & -> & Ht & Hi & Hw)
  | |- context [slog_Error ?m ?w] =>
      let w' := fresh "w" in
      let Ht := fresh "Ht" in let Hi := fresh "Hi" in let Hw := fresh "Hw" in
      destruct (slog_Error_eq m w) as (w' & -> & Ht & Hi & Hw)
  end.

Ltac step_read b n err :=
  match goal with
  | |- context [conn_Read ?buf ?w] =>
      let w' := fresh "w" in
      let Ht := fresh "Ht" in let Hi := fresh "Hi" in let Hw := fresh "Hw" in
      let He := fresh "Heof" in let Hl := fresh "Hlen" in
      let Hr := fresh "Hreply" in
      destruct (conn_Read_spec buf w)
        as (b & n & err & w' & -> & Ht & Hw & Hi & He & Hl & Hr)
  end.

Ltac step_write n err :=
  match goal with
  | |- context [conn_Write ?buf ?w] =>
      let w' := fresh "w" in
      let Ht := fresh "Ht" in let Hi := fresh "Hi" in let Hw := fresh "Hw" in
      let He := fresh "Herr" in
      destruct (conn_Write_spec buf w)
        as (n & err & w' & -> & Ht & Hi & He & Hw)
  end.

(** The trace of the last world, spelled out from the first one. *)
Ltac chain_trace :=
  repeat match goal with
         | H : trace ?w = _ |- context [trace ?w] => rewrite H
         end;
  rewrite <- ?app_assoc; cbn [app]; try reflexivity.

Section KafkaLoop.
Variable Handle : list byte -> result (list byte).

Lemma kafka_iteration_shape (w : World) :
  exists evs w',
    trace w' = trace w ++ evs
    /\ ((kafka.iteration Handle w = (Go tt, w') /\ exchange Handle evs
         /\ (length (incoming w') < length (incoming w))%nat)
        \/ (kafka.iteration Handle w = (Ret, w') /\ aborted Handle evs)).
Proof.
  unfold kafka.iteration, bind.
  step_log. step_read size n err.
  destruct err as [e|].
  { destruct (is_EOF e).
    - eexists _, _; split; [|right; split; [reflexivity|]];
        [chain_trace | constructor].
    - step_log. eexists _, _; split; [|right; split; [reflexivity|]];
        [chain_trace | constructor]. }
  destruct (Nat.eqb_spec n 4) as [->|Hn]; cbn [negb].
  2:{ step_log. eexists _, _; split; [|right; split; [reflexivity|]];
        [chain_trace | constructor; assumption]. }
  step_log. step_read payload m err.
  destruct err as [e|].
  { step_log. eexists _, _; split; [|right; split; [reflexivity|]];
        [chain_trace | constructor]. }
  destruct (Z.eqb_spec (Z.of_nat m) (BigEndian.Uint32 size)) as [Hm|Hm];
    cbn [negb].
  2:{ step_log. eexists _, _; split; [|right; split; [reflexivity|]];
        [chain_trace | constructor; assumption]. }
  assert (Hpl : m = length payload).
  { rewrite Hlen0, length_make, <- Hm. symmetry. apply Nat2Z.id. }
  subst m.
  step_log.
  destruct (Handle payload) as [e|resp] eqn:EH.
  { step_log. eexists _, _; split; [|right; split; [reflexivity|]];
        [chain_trace | econstructor; eassumption]. }
  step_write k err.
  destruct err as [e|].
  { step_log. eexists _, _; split; [|right; split; [reflexivity|]];
        [chain_trace | econstructor; eassumption]. }
  eexists _, _; split; [|left; split; [reflexivity|split]].
  - chain_trace.
  - constructor; auto.
  - rewrite Hi4, Hi3, Hi2, Hi1, Hi0, Hi.
    destruct (incoming w) as [|r1 [|r2 rest]]; cbn [tl length].
    + discriminate (Heof Hi).
    + rewrite Hi1, Hi0, Hi in Heof0. discriminate (Heof0 eq_refl).
    + lia.
Qed.
End KafkaLoop.

Section ServerLoop.
Variable Request_Decode : list byte -> result sarama.Request.t.
Variable HandleRequest : sarama.Request.t -> result (list byte).

Lemma server_iteration_io (w : World) :
  exists evs w',
    trace w' = trace w ++ evs
    /\ ~ In EvClose evs
    /\ ((server.iteration Request_Decode HandleRequest w = (Go tt, w')
         /\ (length (incoming w') < length (incoming w))%nat)
        \/ server.iteration Request_Decode HandleRequest w = (Ret, w')).
Proof.
  unfold server.iteration, bind.
  step_log. step_read size n err.
  destruct err as [e|].
  { step_log. eexists _, _; split; [|split; [|right; reflexivity]];
      [chain_trace | cbn [In]; intuition congruence]. }
  destruct (Nat.eqb_spec n 4) as [->|Hn]; cbn [negb].
  2:{ step_log. eexists _, _; split; [|split; [|right; reflexivity]];
        [chain_trace | cbn [In]; intuition congruence]. }
  step_log. step_read payload m err.
  destruct err as [e|].
  { step_log. eexists _, _; split; [|split; [|right; reflexivity]];
      [chain_trace | cbn [In]; intuition congruence]. }
  destruct (Z.eqb_spec (Z.of_nat m) (BigEndian.Uint32 size)) as [Hm|Hm];
    cbn [negb].
  2:{ step_log. eexists _, _; split; [|split; [|right; reflexivity]];
        [chain_trace | cbn [In]; intuition congruence]. }
  step_log.
  destruct (Request_Decode payload) as [e|req] eqn:ED.
  { step_log. eexists _, _; split; [|split; [|right; reflexivity]];
      [chain_trace | cbn [In]; intuition congruence]. }
  step_log. step_log.
  destruct (HandleRequest req) as [e|resp] eqn:EH.
  { step_log. eexists _, _; split; [|split; [|right; reflexivity]];
      [chain_trace | cbn [In]; intuition congruence]. }
  step_log. cbn [sarama.Encode_ResponseHeaderStruct].
  step_write k1 err1. step_write k2 err2.
  eexists _, _; split; [|split; [|left; split; [reflexivity|]]].
  - chain_trace.
  - cbn [In]; intuition congruence.
  - rewrite Hi8, Hi7, Hi6, Hi5, Hi4, Hi3, Hi2, Hi1, Hi0, Hi.
    destruct (incoming w) as [|r1 [|r2 rest]]; cbn [tl length].
    + discriminate (Heof Hi).
    + rewrite Hi1, Hi0, Hi in Heof0. discriminate (Heof0 eq_refl).
    + lia.
Qed.
End ServerLoop.

(** ** Both handlers: what a turn of the loop does to the connection *)

Lemma exchange_no_Close Handle evs : exchange Handle evs -> ~ In EvClose evs.
Proof. destruct 1; cbn [In]; intuition congruence. Qed.

Lemma aborted_no_Close Handle evs : aborted Handle evs -> ~ In EvClose evs.
Proof. destruct 1; cbn [In]; intuition congruence. Qed.

Lemma iteration_of_io (h : Handler) (w : World) :
  exists evs w',
    trace w' = trace w ++ evs
    /\ ~ In EvClose evs
    /\ ((iteration_of h w = (Go tt, w')
         /\ (length (incoming w') < length (incoming w))%nat)
        \/ iteration_of h w = (Ret, w')).
Proof.
  destruct h as [Handle|Decode HandleRequest]; cbn [iteration_of].
  - destruct (kafka_iteration_shape Handle w)
      as (evs & w' & Ht & [(E & Hx & Hlt)|(E & Ha)]);
      exists evs, w'; split; auto; split;
        eauto using exchange_no_Close, aborted_no_Close.
  - apply server_iteration_io.
Qed.

Lemma for_loop_io (h : Handler) (fuel : nat) (w : World) :
  exists evs,
    ~ In EvClose evs
    /\ match for_loop (iteration_of h) fuel w with
       | Returned w' => trace w' = trace w ++ evs
       | Running w' =>
           trace w' = trace w ++ evs
           /\ (fuel + length (incoming w') <= length (incoming w))%nat
       end.
Proof.
  revert w. induction fuel as [|fuel IH]; intros w; cbn [for_loop].
  - exists []. rewrite app_nil_r. cbn; intuition lia.
  - destruct (iteration_of_io h w) as (evs & w1 & Ht & Hnc & [(E & Hlt)|E]);
      rewrite E.
    + destruct (IH w1) as (evs' & Hnc' & H).
      exists (evs ++ evs'). split.
      * rewrite in_app_iff; tauto.
      * destruct (for_loop (iteration_of h) fuel w1) as [w2|w2];
          rewrite app_assoc, <- Ht; [exact H|].
        destruct H as [H1 H2]; split; [exact H1|lia].
    + exists evs; auto.
Qed.

Lemma count_Close_app (a b : list Event) :
  count_Close (a ++ b) = (count_Close a + count_Close b)%nat.
Proof. unfold count_Close. rewrite filter_app, length_app. reflexivity. Qed.

Lemma count_Close_0 (evs : list Event) :
  ~ In EvClose evs -> count_Close evs = 0%nat.
Proof.
  unfold count_Close. induction evs as [|e evs IH]; intros H; [reflexivity|].
  cbn [filter]. destruct e; cbn [is_Close];
    try (apply IH; intros Hin; apply H; right; exact Hin).
  exfalso; apply H; left; reflexivity.
Qed.

Lemma HandleConnection_of_eq (h : Handler) (fuel : nat) (conn : World) :
  HandleConnection_of h fuel conn
  = with_deferred_Close (iteration_of h) fuel conn.
Proof. destruct h; reflexivity. Qed.

Lemma HandleConnection_of_returns (h : Handler) (conn : World) (fuel : nat) :
  (length (incoming conn) < fuel)%nat ->
  exists w', HandleConnection_of h fuel conn = Returned w'.
Proof.
  intros Hfuel. rewrite HandleConnection_of_eq. unfold with_deferred_Close.
  destruct (for_loop_io h fuel conn) as (evs & _ & H).
  destruct (for_loop (iteration_of h) fuel conn) as [w'|w'].
  - eexists; reflexivity.
  - destruct H as [_ H]. lia.
Qed.

(** C5.  Whichever way the loop of a connection handler ends (end of
    stream, a failed or short read, a request that cannot be decoded or
    handled, a failed write), [HandleConnection] returns with the
    connection closed exactly once, by its last call on the
    connection.  The handler does return on every connection whose peer
    stops answering after finitely many reads. *)
Theorem connection_closed_exactly_once (h : Handler) (conn : World) :
  (exists w',
      HandleConnection_of h (S (length (incoming conn))) conn = Returned w')
  /\ (forall fuel w',
         HandleConnection_of h fuel conn = Returned w' ->
         exists evs,
           trace w' = trace conn ++ evs ++ [EvClose]
           /\ count_Close evs = 0%nat
           /\ count_Close (trace w') = S (count_Close (trace conn))).
Proof.
  split.
  - apply HandleConnection_of_returns. lia.
  - intros fuel w'. rewrite HandleConnection_of_eq. unfold with_deferred_Close.
    destruct (for_loop_io h fuel conn) as (evs & Hnc & H).
    destruct (for_loop (iteration_of h) fuel conn) as [w1|w1];
      [|discriminate].
    intros [= <-]. exists evs.
    assert (Ht : trace (conn_Close w1) = trace conn ++ evs ++ [EvClose]).
    { unfold conn_Close, record; cbn [trace]. rewrite H, app_assoc.
      reflexivity. }
    split; [exact Ht|]. split; [apply count_Close_0; exact Hnc|].
    rewrite Ht, !count_Close_app, (count_Close_0 evs Hnc). cbn. lia.
Qed.

Section KafkaRun.
Variable Handle : list byte -> result (list byte).

Lemma kafka_for_loop_shape (fuel : nat) (w : World) :
  exists exs,
    Forall (exchange Handle) exs
    /\ match for_loop (kafka.iteration Handle) fuel w with
       | Returned w' =>
           exists last,
             aborted Handle last
             /\ trace w' = trace w ++ concat exs ++ last
       | Running w' => trace w' = trace w ++ concat exs
       end.
Proof.
  revert w. induction fuel as [|fuel IH]; intros w; cbn [for_loop].
  - exists []. split; [constructor|]. cbn. rewrite app_nil_r. reflexivity.
  - destruct (kafka_iteration_shape Handle w)
      as (evs & w1 & Ht & [(E & Hx & _)|(E & Ha)]); rewrite E.
    + destruct (IH w1) as (exs & Hall & H).
      exists (evs :: exs). split; [constructor; assumption|].
      cbn [concat].
      destruct (for_loop (kafka.iteration Handle) fuel w1) as [w2|w2].
      * destruct H as (last & Hl & H). exists last. split; [exact Hl|].
        rewrite H, Ht, <- !app_assoc. reflexivity.
      * rewrite H, Ht, <- !app_assoc. reflexivity.
    + exists []. split; [constructor|]. exists evs. split; [exact Ha|].
      exact Ht.
Qed.
End KafkaRun.

(** C6.  On one connection the calls of [kafka.run] come as a sequence
    of complete exchanges, each one the read of a length, the read of
    that many payload bytes and the successful write of the response to
    this very payload, followed by at most one unfinished exchange and
    the close.  So no read for a later request comes before the write
    for the request before it has returned without error. *)
Theorem requests_strictly_sequential
        (Handle : list byte -> result (list byte)) (fuel : nat) (conn : World) :
  exists exs,
    Forall (exchange Handle) exs
    /\ match kafka.run Handle fuel conn with
       | Returned w' =>
           exists last,
             aborted Handle last
             /\ trace w' = trace conn ++ concat exs ++ last ++ [EvClose]
       | Running w' => trace w' = trace conn ++ concat exs
       end.
Proof.
  unfold kafka.run, with_deferred_Close.
  destruct (kafka_for_loop_shape Handle fuel conn) as (exs & Hall & H).
  exists exs. split; [exact Hall|].
  destruct (for_loop (kafka.iteration Handle) fuel conn) as [w1|w1].
  - destruct H as (last & Hl & H). exists last. split; [exact Hl|].
    unfold conn_Close, record; cbn [trace]. rewrite H, <- !app_assoc.
    reflexivity.
  - exact H.
Qed.

(** ** A whole frame on the wire *)

Lemma copy_make_length (data : list byte) (k : nat) :
  length data = k -> copy (make k) data = data.
Proof. intros <-. apply copy_make_exact. Qed.

(** Runs the two reads of a turn on a world that delivers a whole
    frame. *)
Ltac exec_frame_reads w Hframe :=
  let Hinc := fresh "Hinc" in
  let Hsz := fresh "Hsz" in
  let Hpl := fresh "Hpl" in
  let inc := fresh "inc" in
  let wr := fresh "wr" in
  let tr := fresh "tr" in
  let sl := fresh "sl" in
  destruct Hframe as (Hinc & Hsz & Hpl);
  destruct w as [inc wr tr sl]; cbn [incoming] in Hinc; subst inc;
  unfold bind, slog_Debug, slog_Error, conn_Read, record, return_, ret;
  cbn [incoming wreplies trace slog rdata rerr];
  rewrite length_make, Hsz, (copy_make_length _ 4 Hsz);
  cbn [Nat.min Nat.eqb negb incoming wreplies trace slog rdata rerr];
  rewrite <- Hpl, Nat2Z.id, length_make, copy_make_exact,
    Nat.min_id, Z.eqb_refl;
  cbn [negb incoming wreplies trace slog].

Section KafkaFrame.
Variable Handle : list byte -> result (list byte).

Lemma kafka_iteration_frame (w : World) (size payload : list byte)
      (rest : list ReadReply) :
  delivers_frame w size payload rest ->
  exists w',
    incoming w' = rest
    /\ match Handle payload with
       | inl _ =>
           kafka.iteration Handle w = (Ret, w')
           /\ trace w' = trace w ++ [ EvRead size 4 None;
                                      EvRead payload (length payload) None ]
           /\ wreplies w' = wreplies w
       | inr resp =>
           trace w' = trace w ++ [ EvRead size 4 None;
                                   EvRead payload (length payload) None;
                                   EvWrite resp (hd None (wreplies w)) ]
           /\ wreplies w' = tl (wreplies w)
           /\ kafka.iteration Handle w
              = (match hd None (wreplies w) with
                 | None => Go tt
                 | Some _ => Ret
                 end, w')
       end.
Proof.
  intros Hframe. unfold kafka.iteration.
  exec_frame_reads w Hframe.
  destruct (Handle payload) as [e|resp].
  - eexists; split; [|split; [reflexivity|split]]; cbn [incoming trace wreplies];
      rewrite <- ?app_assoc; reflexivity.
  - unfold conn_Write, record; cbn [incoming wreplies trace slog].
    destruct wr as [|[e|] wr]; cbn [hd tl];
      (eexists; split; [|split; [|split; [|reflexivity]]];
       cbn [incoming trace wreplies]; rewrite <- ?app_assoc; reflexivity).
Qed.
End KafkaFrame.

Section ServerFrame.
Variable Request_Decode : list byte -> result sarama.Request.t.
Variable HandleRequest : sarama.Request.t -> result (list byte).

Lemma server_iteration_frame (w : World) (size payload : list byte)
      (rest : list ReadReply) (req : sarama.Request.t) (resp : list byte) :
  delivers_frame w size payload rest ->
  Request_Decode payload = inr req ->
  HandleRequest req = inr resp ->
  exists w',
    server.iteration Request_Decode HandleRequest w = (Go tt, w')
    /\ incoming w' = rest
    /\ wreplies w' = tl (tl (wreplies w))
    /\ trace w'
       = trace w
         ++ [ EvRead size 4 None;
              EvRead payload (length payload) None;
              EvWrite (sarama.putInt32 (int32 (Z.of_nat (length resp) + 8))
                       ++ sarama.putInt32 (sarama.Request.CorrelationID req))
                      (hd None (wreplies w));
              EvWrite resp (hd None (tl (wreplies w))) ].
Proof.
  intros Hframe Hdec Hreq. unfold server.iteration.
  exec_frame_reads w Hframe.
  rewrite Hdec, Hreq.
  cbn [sarama.Encode_ResponseHeaderStruct
         sarama.ResponseHeaderStruct.Length
         sarama.ResponseHeaderStruct.CorrelationID].
  unfold conn_Write, record; cbn [incoming wreplies trace slog].
  destruct wr as [|r1 [|r2 wr]]; cbn [hd tl incoming wreplies trace slog];
    (eexists; split; [reflexivity|split; [reflexivity|split; [reflexivity|]]];
     cbn [incoming trace wreplies]; rewrite <- ?app_assoc; reflexivity).
Qed.
End ServerFrame.

Lemma with_deferred_Close_Ret (body : M World unit) (fuel : nat)
      (w w' : World) :
  body w = (Ret, w') ->
  with_deferred_Close body (S fuel) w = Returned (conn_Close w').
Proof.
  intros E. unfold with_deferred_Close. cbn [for_loop]. rewrite E.
  reflexivity.
Qed.

Lemma trace_conn_Close (w : World) : trace (conn_Close w) = trace w ++ [EvClose].
Proof. reflexivity. Qed.

Lemma written_app (a b : list Event) :
  written (a ++ b) = written a ++ written b.
Proof.
  induction a as [|[buf n e|buf e|] a IH]; cbn [app written];
    rewrite ?IH, ?app_assoc; reflexivity.
Qed.

(** ** Dispatch *)

Section Dispatch.
Import sarama.
Variable Request_Decode : list byte -> result Request.t.
Variable encodeBody : ProtocolBody -> result (list byte).
Variable ResponseHeaderVersion : Z.
Variable ApiVersionsRequestVersion : Z.

Let dispatch := kafka.dispatch ResponseHeaderVersion ApiVersionsRequestVersion.
Let Handle := kafka.Handle Request_Decode encodeBody ResponseHeaderVersion
                           ApiVersionsRequestVersion.

Lemma dispatch_no_handler (req : Request.t) :
  APIKey (Request.Body req) <> kafka.ApiVersionsApiKey ->
  dispatch req = inl (errors_New "no handler found for request").
Proof.
  intros Hkey. unfold dispatch, kafka.dispatch.
  destruct (Z.eqb_spec (APIKey (Request.Body req)) kafka.ApiVersionsApiKey)
    as [E|_]; [contradiction|reflexivity].
Qed.

Lemma dispatch_inr (req : Request.t) (resp : Response.t) :
  dispatch req = inr resp ->
  exists apiVersionsReq body,
    Request.Body req = ApiVersionsRequestBody apiVersionsReq
    /\ kafka.HandleApiVersions ApiVersionsRequestVersion
         (Request.CorrelationID req) (Request.ClientID req) apiVersionsReq
       = inr body
    /\ resp = Response.mk (Request.CorrelationID req) ResponseHeaderVersion
                          (ApiVersionsResponseBody body).
Proof.
  unfold dispatch, kafka.dispatch.
  destruct (APIKey (Request.Body req) =? kafka.ApiVersionsApiKey);
    [|discriminate].
  destruct (Request.Body req) as [r| |]; try discriminate.
  cbn. intros [= <-]. eexists _, _. repeat split.
Qed.

(** C3.  A request whose API key has no case in [dispatch] makes
    [dispatch] fail with the error "no handler found for request";
    the loop of [kafka.run] is left at once, the connection is closed,
    and between the two reads of the request and the close nothing is
    written. *)
Theorem unregistered_api_key_closes_without_response
        (conn : World) (size payload : list byte) (rest : list ReadReply)
        (req : Request.t) (fuel : nat) :
  delivers_frame conn size payload rest ->
  Request_Decode payload = inr req ->
  APIKey (Request.Body req) <> kafka.ApiVersionsApiKey ->
  dispatch req = inl (errors_New "no handler found for request")
  /\ exists w',
      kafka.HandleConnection Handle (S fuel) conn = Returned w'
      /\ trace w' = trace conn ++ [ EvRead size 4 None;
                                    EvRead payload (length payload) None;
                                    EvClose ]
      /\ written (trace w') = written (trace conn).
Proof.
  intros Hframe Hdec Hkey.
  pose proof (dispatch_no_handler req Hkey) as Hd.
  split; [exact Hd|].
  destruct (kafka_iteration_frame Handle conn size payload rest Hframe)
    as (w1 & _ & H).
  assert (HH : Handle payload
               = inl (fmt_Errorf "failed to dispatch request"
                        (errors_New "no handler found for request"))).
  { unfold Handle, kafka.Handle. rewrite Hdec. fold dispatch. rewrite Hd.
    reflexivity. }
  rewrite HH in H. destruct H as (E & Ht & _).
  exists (conn_Close w1). split; [|split].
  - unfold kafka.HandleConnection, kafka.run.
    apply with_deferred_Close_Ret. exact E.
  - rewrite trace_conn_Close, Ht, <- app_assoc. reflexivity.
  - rewrite trace_conn_Close, Ht, !written_app. cbn [written].
    rewrite !app_nil_r. reflexivity.
Qed.

Lemma Decode_Encode_Response (resp : Response.t) (encodedResp : list byte) :
  - 2 ^ 31 <= Response.CorrelationID resp < 2 ^ 31 ->
  Encode_Response encodeBody resp = inr encodedResp ->
  exists hdr,
    Decode_ResponseHeaderStruct encodedResp = Some hdr
    /\ ResponseHeaderStruct.CorrelationID hdr = Response.CorrelationID resp.
Proof.
  intros Hrange. unfold Encode_Response.
  destruct (encodeBody (Response.Body resp)) as [e|body]; [discriminate|].
  set (len := putInt32 (Z.of_nat (length body) + 4)).
  set (cid := putInt32 (Response.CorrelationID resp)).
  intros H.
  assert (E : encodedResp = len ++ cid ++ body) by congruence.
  rewrite E. clear H E. unfold Decode_ResponseHeaderStruct.
  assert (Hlen : (length (len ++ cid ++ body) <? 8)%nat = false).
  { apply Nat.ltb_ge. rewrite !length_app. subst len cid.
    unfold putInt32. rewrite !length_PutUint32. lia. }
  rewrite Hlen. eexists. split; [reflexivity|].
  cbn [ResponseHeaderStruct.CorrelationID].
  change (skipn 4 (len ++ cid ++ body)) with (cid ++ body).
  subst cid. apply getInt32_putInt32. exact Hrange.
Qed.

(** C1.  When a request decodes and [dispatch] succeeds on it, the
    [Response] it returns has the correlation identifier of the
    request, and whenever [Handle] then yields the encoded response,
    the response header read back from those bytes has this same
    correlation identifier. *)
Theorem response_carries_request_correlation_id
        (encodedRequest : list byte) (req : Request.t) (resp : Response.t) :
  - 2 ^ 31 <= Request.CorrelationID req < 2 ^ 31 ->
  Request_Decode encodedRequest = inr req ->
  dispatch req = inr resp ->
  Response.CorrelationID resp = Request.CorrelationID req
  /\ forall encodedResp,
      Handle encodedRequest = inr encodedResp ->
      exists hdr,
        Decode_ResponseHeaderStruct encodedResp = Some hdr
        /\ ResponseHeaderStruct.CorrelationID hdr = Request.CorrelationID req.
Proof.
  intros Hrange Hdec Hd.
  destruct (dispatch_inr req resp Hd) as (a & body & _ & _ & Hresp).
  assert (Hcid : Response.CorrelationID resp = Request.CorrelationID req)
    by (rewrite Hresp; reflexivity).
  split; [exact Hcid|].
  intros encodedResp. unfold Handle, kafka.Handle. rewrite Hdec.
  fold dispatch. rewrite Hd.
  destruct (Encode_Response encodeBody resp) as [e|enc] eqn:Eenc;
    [discriminate|].
  intros [= <-]. rewrite <- Hcid.
  apply Decode_Encode_Response; [rewrite Hcid; exact Hrange|exact Eenc].
Qed.

(** C9.  [HandleApiVersions] answers any two ApiVersions requests,
    whatever their correlation identifiers, client identifiers and
    bodies, with one and the same body: error code 0 and a list of
    keys that is not empty and has an entry for the ApiVersions key.
    [dispatch] hands this body on unchanged, and the earlier
    [metadataManager.Handle] likewise encodes one fixed body of this
    kind for every request. *)
Theorem api_versions_response_is_static
        (req1 req2 : Request.t) (a1 a2 : ApiVersionsRequest.t) :
  Request.Body req1 = ApiVersionsRequestBody a1 ->
  Request.Body req2 = ApiVersionsRequestBody a2 ->
  exists body,
    kafka.HandleApiVersions ApiVersionsRequestVersion
      (Request.CorrelationID req1) (Request.ClientID req1) a1 = inr body
    /\ kafka.HandleApiVersions ApiVersionsRequestVersion
         (Request.CorrelationID req2) (Request.ClientID req2) a2 = inr body
    /\ (exists resp1 resp2,
           dispatch req1 = inr resp1 /\ dispatch req2 = inr resp2
           /\ Response.Body resp1 = ApiVersionsResponseBody body
           /\ Response.Body resp2 = ApiVersionsResponseBody body)
    /\ ApiVersionsResponse.ErrorCode body = 0
    /\ ApiVersionsResponse.ApiKeys body <> []
    /\ (exists k, In k (ApiVersionsResponse.ApiKeys body)
                  /\ ApiVersionsResponseKey.ApiKey k = kafka.ApiVersionsApiKey)
    /\ exists body',
        (forall req, metadata_manager.Handle encodeBody req
                     = encodeBody (ApiVersionsResponseBody body'))
        /\ ApiVersionsResponse.ErrorCode body' = 0
        /\ ApiVersionsResponse.ApiKeys body' <> []
        /\ (exists k, In k (ApiVersionsResponse.ApiKeys body')
                      /\ ApiVersionsResponseKey.ApiKey k
                         = metadata_manager.ApiVersionsApiKey).
Proof.
  intros H1 H2. eexists. split; [reflexivity|]. split; [reflexivity|].
  split; [|split; [reflexivity|split; [discriminate|split]]].
  - unfold dispatch, kafka.dispatch. rewrite H1, H2. cbn.
    eexists _, _. repeat split.
  - eexists. split; [left; reflexivity|reflexivity].
  - eexists. split; [intros req; reflexivity|].
    split; [reflexivity|]. split; [discriminate|].
    eexists. split; [left; reflexivity|reflexivity].
Qed.
End Dispatch.

(** The connection delivers a request with key 0: two reads, no write,
    close. *)
Lemma unregistered_api_key_closes_without_response_witness :
  exists w',
    kafka.HandleConnection demo.kafkaApi 1 (connect demo.produceFrame [])
    = Returned w'
    /\ trace w' = [ EvRead [x00; x00; x00; x05] 4 None;
                    EvRead [x00; x00; x00; x00; x02] 5 None;
                    EvClose ].
Proof.
  destruct (unregistered_api_key_closes_without_response
              demo.Request_Decode demo.encodeBody 0 3
              (connect demo.produceFrame [])
              [x00; x00; x00; x05] [x00; x00; x00; x00; x02] []
              (sarama.Request.mk 2 "demo" (sarama.OtherBody 0 0)) 0)
    as (_ & w' & E & Ht & _).
  - repeat split.
  - reflexivity.
  - vm_compute. discriminate.
  - exists w'. split; [exact E|exact Ht].
Defined.

(** An ApiVersions request with correlation identifier 1 through the
    stand-in codec: the response header read back carries 1. *)
Lemma response_carries_request_correlation_id_witness :
  exists hdr,
    demo.kafkaApi [x12; x00; x00; x00; x01]
    = inr [x00; x00; x00; x06; x00; x00; x00; x01; x00; x12]
    /\ sarama.Decode_ResponseHeaderStruct
         [x00; x00; x00; x06; x00; x00; x00; x01; x00; x12] = Some hdr
    /\ sarama.ResponseHeaderStruct.CorrelationID hdr = 1.
Proof.
  destruct (response_carries_request_correlation_id
              demo.Request_Decode demo.encodeBody 0 3
              [x12; x00; x00; x00; x01]
              (sarama.Request.mk 1 "demo"
                 (sarama.ApiVersionsRequestBody
                    (sarama.ApiVersionsRequest.mk 3 "demo" "1")))
              (sarama.Response.mk 1 0
                 (sarama.ApiVersionsResponseBody
                    (sarama.ApiVersionsResponse.mk
                       [sarama.ApiVersionsResponseKey.mk 18 3 3] 3 0))))
    as (_ & H).
  - cbn. lia.
  - reflexivity.
  - reflexivity.
  - destruct (H [x00; x00; x00; x06; x00; x00; x00; x01; x00; x12] eq_refl)
      as (hdr & Hdec & Hcid).
    exists hdr. split; [reflexivity|]. split; [exact Hdec|exact Hcid].
Defined.

(** Two ApiVersions requests that differ in everything the client
    chooses. *)
Lemma api_versions_response_is_static_witness :
  exists body,
    kafka.HandleApiVersions 3 1 "sarama" (sarama.ApiVersionsRequest.mk 3 "sarama" "1.27.0")
    = inr body
    /\ kafka.HandleApiVersions 3 77 "kcore-client"
         (sarama.ApiVersionsRequest.mk 0 "kcore" "1.0.0")
       = inr body
    /\ sarama.ApiVersionsResponse.ErrorCode body = 0.
Proof.
  destruct (api_versions_response_is_static
              demo.encodeBody 0 3
              (sarama.Request.mk 1 "sarama"
                 (sarama.ApiVersionsRequestBody
                    (sarama.ApiVersionsRequest.mk 3 "sarama" "1.27.0")))
              (sarama.Request.mk 77 "kcore-client"
                 (sarama.ApiVersionsRequestBody
                    (sarama.ApiVersionsRequest.mk 0 "kcore" "1.0.0")))
              _ _ eq_refl eq_refl)
    as (body & H1 & H2 & _ & H0 & _).
  exists body. split; [exact H1|]. split; [exact H2|exact H0].
Defined.

(** *** No read while a response is due *)

Lemma counts_app (a b : list Event) :
  count_reads (a ++ b) = (count_reads a + count_reads b)%nat
  /\ count_writes_ok (a ++ b) = (count_writes_ok a + count_writes_ok b)%nat.
Proof.
  unfold count_reads, count_writes_ok.
  rewrite !filter_app, !length_app. split; reflexivity.
Qed.

Section KafkaPipelining.
Variable Handle : list byte -> result (list byte).

(** A read inside (or right after) a turn that leaves the loop. *)
Lemma read_in_last_turn (last tail pre post : list Event) b n e :
  aborted Handle last \/ last = [] ->
  tail = [] \/ tail = [EvClose] ->
  last ++ tail = pre ++ EvRead b n e :: post ->
  (count_writes_ok pre = 0 /\ count_reads pre <= 1)%nat.
Proof.
  intros Hlast Htail H.
  assert (Hcases : pre = [] \/ exists b' n' e', pre = [EvRead b' n' e']).
  { destruct Hlast as [Ha| ->]; [destruct Ha|];
      destruct Htail as [-> | ->]; cbn [app] in H;
      destruct pre as [|p1 [|p2 [|p3 [|p4 pre]]]]; cbn [app] in H;
      try discriminate H; auto;
      injection H as; subst; try discriminate; eauto.
    all: try (destruct pre; discriminate). }
  destruct Hcases as [-> | (b' & n' & e' & ->)]; cbn; lia.
Qed.

Lemma read_after_exchanges (exs : list (list Event))
      (last tail pre post : list Event) b n e :
  Forall (exchange Handle) exs ->
  aborted Handle last \/ last = [] ->
  tail = [] \/ tail = [EvClose] ->
  concat exs ++ last ++ tail = pre ++ EvRead b n e :: post ->
  (2 * count_writes_ok pre <= count_reads pre <= 2 * count_writes_ok pre + 1)%nat.
Proof.
  intros Hall Hlast Htail. revert pre.
  induction Hall as [|x exs Hx Hall IH]; intros pre H.
  - cbn [concat app] in H.
    destruct (read_in_last_turn last tail pre post b n e Hlast Htail H). lia.
  - destruct Hx as [size payload resp Hs Hp HH]. cbn [concat app] in H.
    destruct pre as [|p1 [|p2 [|p3 pre]]]; cbn [app] in H.
    + cbn; lia.
    + injection H as <- _. cbn; lia.
    + injection H as <- <- H. discriminate H.
    + injection H as <- <- <- H.
      specialize (IH pre H).
      change (EvRead size 4 None
              :: EvRead payload (length payload) None
              :: EvWrite resp None :: pre)
        with ([EvRead size 4 None; EvRead payload (length payload) None;
               EvWrite resp None] ++ pre).
      destruct (counts_app [EvRead size 4 None;
                            EvRead payload (length payload) None;
                            EvWrite resp None] pre) as [-> ->].
      cbn. lia.
Qed.

(** Whenever [kafka.run] starts a read, the reads made before it pair
    up into requests of which all but the one being read have had their
    response written without error. *)
Lemma no_read_while_response_due (fuel : nat) (conn w' : World)
      (pre post : list Event) b n e :
  kafka.run Handle fuel conn = Returned w' \/
  kafka.run Handle fuel conn = Running w' ->
  trace w' = trace conn ++ pre ++ EvRead b n e :: post ->
  (2 * count_writes_ok pre <= count_reads pre <= 2 * count_writes_ok pre + 1)%nat.
Proof.
  unfold kafka.run, with_deferred_Close.
  destruct (kafka_for_loop_shape Handle fuel conn) as (exs & Hall & H).
  destruct (for_loop (kafka.iteration Handle) fuel conn) as [w1|w1];
    intros [[= <-]|[= <-]] Ht.
  - destruct H as (last & Hl & H).
    rewrite trace_conn_Close, H, <- !app_assoc in Ht.
    apply app_inv_head in Ht.
    apply (read_after_exchanges exs last [EvClose] pre post b n e); auto.
  - rewrite H in Ht. apply app_inv_head in Ht.
    apply (read_after_exchanges exs [] [] pre post b n e); auto.
    rewrite !app_nil_r. exact Ht.
Qed.
End KafkaPipelining.

(** A connection with one ApiVersions request: the handler returns and
    the trace holds one close. *)
Lemma connection_closed_exactly_once_witness :
  exists w',
    HandleConnection_of demo.kafkaHandler 3 (connect demo.apiVersionsFrame [])
    = Returned w'
    /\ count_Close (trace w') = 1%nat.
Proof.
  destruct (connection_closed_exactly_once
              demo.kafkaHandler (connect demo.apiVersionsFrame []))
    as [(w' & E) H].
  destruct (H 3%nat w' E) as (evs & _ & _ & Hc).
  exists w'. split; [exact E|exact Hc].
Defined.

(** ** Reading the length of a frame *)

Lemma iteration_of_size_read_fails (h : Handler) (conn : World)
      (r : ReadReply) (rest : list ReadReply) :
  incoming conn = r :: rest ->
  rerr r <> None \/ (length (rdata r) < 4)%nat ->
  exists w',
    iteration_of h conn = (Ret, w')
    /\ incoming w' = rest
    /\ trace w' = trace conn ++ [ EvRead (copy (make 4) (rdata r))
                                         (Nat.min 4 (length (rdata r)))
                                         (rerr r) ].
Proof.
  intros Hinc Hbad.
  destruct conn as [inc wr tr sl]; cbn [incoming] in Hinc; subst inc.
  assert (Hn : rerr r = None ->
               (Nat.min 4 (length (rdata r)) =? 4)%nat = false).
  { intros Hnone. destruct Hbad as [Hbad|Hbad]; [contradiction|].
    apply Nat.eqb_neq. lia. }
  destruct h as [Handle|Decode HandleRequest]; cbn [iteration_of];
    [unfold kafka.iteration|unfold server.iteration];
    unfold bind, slog_Debug, slog_Error, conn_Read, record, return_, ret;
    cbn [incoming wreplies trace slog]; rewrite length_make;
    destruct (rerr r) as [e|];
    [ destruct (is_EOF e) | rewrite (Hn eq_refl) | | rewrite (Hn eq_refl) ];
    cbn [negb]; eexists; repeat split.
Qed.

(** C2, as the code has it.  Both handlers issue one read for the four
    bytes of the length.  When that read reports an error, or brings
    fewer than four bytes without an error, the loop is left in the same
    turn: no second read is made, and the connection is closed. *)
Theorem short_size_read_is_fatal (h : Handler) (conn : World)
        (r : ReadReply) (rest : list ReadReply) (fuel : nat) :
  incoming conn = r :: rest ->
  rerr r <> None \/ (length (rdata r) < 4)%nat ->
  exists w',
    HandleConnection_of h (S fuel) conn = Returned w'
    /\ incoming w' = rest
    /\ trace w' = trace conn ++ [ EvRead (copy (make 4) (rdata r))
                                         (Nat.min 4 (length (rdata r)))
                                         (rerr r);
                                  EvClose ].
Proof.
  intros Hinc Hbad.
  destruct (iteration_of_size_read_fails h conn r rest Hinc Hbad)
    as (w1 & E & Hi & Ht).
  exists (conn_Close w1). split; [|split].
  - rewrite HandleConnection_of_eq. apply with_deferred_Close_Ret. exact E.
  - exact Hi.
  - rewrite trace_conn_Close, Ht, <- app_assoc. reflexivity.
Qed.

(** The length arrives in two pieces of two bytes: the handler gives up
    after the first piece and leaves the second one unread. *)
Lemma short_size_read_is_fatal_witness :
  exists w',
    HandleConnection_of demo.kafkaHandler 1 (connect demo.splitLength [])
    = Returned w'
    /\ incoming w' = tl demo.splitLength
    /\ trace w' = [ EvRead [x00; x00; x00; x00] 2 None; EvClose ].
Proof.
  apply (short_size_read_is_fatal demo.kafkaHandler
           (connect demo.splitLength [])
           (mkReadReply [x00; x00] None) (tl demo.splitLength) 0).
  - reflexivity.
  - right. cbn. lia.
Defined.

(** C2, as the claim states it, fails: neither handler reads again
    after a short read of the length, although the peer reported neither
    an error nor the end of the stream and has the rest ready. *)
Lemma short_size_read_is_not_retried :
  ~ retries_short_size_read demo.kafkaHandler
  /\ ~ retries_short_size_read demo.serverHandler.
Proof.
  assert (H : forall h, (exists w', HandleConnection_of h 1
                                      (connect demo.splitLength [])
                                    = Returned w'
                                    /\ trace w' = [ EvRead [x00; x00; x00; x00]
                                                           2 None; EvClose ]) ->
                        ~ retries_short_size_read h).
  { intros h (w' & E & Ht) Hretry.
    destruct (Hretry (connect demo.splitLength [])
                     (mkReadReply [x00; x00] None) (tl demo.splitLength)
                     1%nat w' eq_refl eq_refl)
      as (b1 & n1 & b2 & n2 & e2 & evs & Ht').
    - cbn. lia.
    - discriminate.
    - exact E.
    - rewrite Ht in Ht'. cbn in Ht'. discriminate Ht'. }
  split; apply H; eexists; split; reflexivity.
Qed.

(** ** The declared length of a frame *)

Lemma copy_make_le (k : nat) (data : list byte) :
  (k <= length data)%nat -> copy (make k) data = firstn k data.
Proof.
  intros Hk. unfold copy. rewrite length_make, skipn_all2.
  - apply app_nil_r.
  - rewrite length_make. exact Hk.
Qed.

(** C10.  Every value [L] that four bytes can declare is taken as it
    is: the next call is a read into a buffer of exactly [L] bytes, with
    no bound and no check in between.  When that read is complete the
    [L] bytes go to the request handler (or the decoder) as they are; in
    particular for [L = 0] this is the empty payload. *)
Theorem declared_length_is_not_checked (h : Handler) (conn : World) (L : Z)
        (r2 : ReadReply) (rest : list ReadReply) :
  0 <= L < 2 ^ 32 ->
  incoming conn = mkReadReply (BigEndian.PutUint32 L) None :: r2 :: rest ->
  exists flow w1 payload evs,
    iteration_of h conn = (flow, w1)
    /\ trace w1 = trace conn
                  ++ EvRead (BigEndian.PutUint32 L) 4 None
                  :: EvRead payload
                            (Nat.min (Z.to_nat L) (length (rdata r2)))
                            (rerr r2)
                  :: evs
    /\ length payload = Z.to_nat L
    /\ (rerr r2 = None ->
        (Z.to_nat L <= length (rdata r2))%nat ->
        payload = firstn (Z.to_nat L) (rdata r2)
        /\ evs = response_events h payload (wreplies conn))
    /\ (L = 0 -> rerr r2 = None ->
        payload = [] /\ evs = response_events h [] (wreplies conn)).
Proof.
  intros HL Hinc.
  assert (Hgen :
    exists flow w1 evs,
      iteration_of h conn = (flow, w1)
      /\ trace w1 = trace conn
                    ++ EvRead (BigEndian.PutUint32 L) 4 None
                    :: EvRead (copy (make (Z.to_nat L)) (rdata r2))
                              (Nat.min (Z.to_nat L) (length (rdata r2)))
                              (rerr r2)
                    :: evs
      /\ (rerr r2 = None ->
          (Z.to_nat L <= length (rdata r2))%nat ->
          evs = response_events h (copy (make (Z.to_nat L)) (rdata r2))
                                (wreplies conn))).
  { destruct conn as [inc wr tr sl]; cbn [incoming] in Hinc; subst inc.
    cbn [trace wreplies].
    assert (Hmin : (Z.to_nat L <= length (rdata r2))%nat ->
                   (Z.of_nat (Nat.min (Z.to_nat L) (length (rdata r2))) =? L)
                   = true).
    { intros Hle. apply Z.eqb_eq. rewrite Nat.min_l by exact Hle.
      apply Z2Nat.id. lia. }
    destruct h as [Handle|Decode HandleRequest];
      cbn [iteration_of response_events];
      [unfold kafka.iteration|unfold server.iteration];
      unfold bind, slog_Debug, slog_Error, conn_Read, record, return_, ret;
      cbn [incoming wreplies trace slog rdata rerr];
      rewrite length_make, (copy_make_length _ 4 (length_PutUint32 L));
      rewrite length_PutUint32, Uint32_PutUint32 by exact HL;
      cbn [Nat.min Nat.eqb negb incoming wreplies trace slog rdata rerr];
      rewrite length_make;
      set (payload := copy (make (Z.to_nat L)) (rdata r2));
      set (n := Nat.min (Z.to_nat L) (length (rdata r2))) in *.
    - destruct (rerr r2) as [e|];
        [eexists _, _, _; split; [reflexivity|]; split;
         [cbn [trace]; rewrite <- !app_assoc; reflexivity|intros Hx; discriminate Hx]|].
      destruct (Z.of_nat n =? L) eqn:En; cbn [negb];
        [|eexists _, _, _; split; [reflexivity|]; split;
          [cbn [trace]; rewrite <- !app_assoc; reflexivity
          |intros _ Hle; discriminate (Hmin Hle)]].
      destruct (Handle payload) as [e|resp];
        [eexists _, _, _; split; [reflexivity|]; split;
         [cbn [trace]; rewrite <- !app_assoc; reflexivity|reflexivity]|].
      unfold conn_Write, record; cbn [incoming wreplies trace slog].
      destruct wr as [|[e|] wr]; cbn [hd];
        (eexists _, _, _; split; [reflexivity|]; split;
         [cbn [trace]; rewrite <- !app_assoc; reflexivity|reflexivity]).
    - destruct (rerr r2) as [e|];
        [eexists _, _, _; split; [reflexivity|]; split;
         [cbn [trace]; rewrite <- !app_assoc; reflexivity|intros Hx; discriminate Hx]|].
      destruct (Z.of_nat n =? L) eqn:En; cbn [negb];
        [|eexists _, _, _; split; [reflexivity|]; split;
          [cbn [trace]; rewrite <- !app_assoc; reflexivity
          |intros _ Hle; discriminate (Hmin Hle)]].
      destruct (Decode payload) as [e|req];
        [eexists _, _, _; split; [reflexivity|]; split;
         [cbn [trace]; rewrite <- !app_assoc; reflexivity|reflexivity]|].
      destruct (HandleRequest req) as [e|resp];
        [eexists _, _, _; split; [reflexivity|]; split;
         [cbn [trace]; rewrite <- !app_assoc; reflexivity|reflexivity]|].
      cbn [sarama.Encode_ResponseHeaderStruct
             sarama.ResponseHeaderStruct.Length
             sarama.ResponseHeaderStruct.CorrelationID].
      unfold conn_Write, record; cbn [incoming wreplies trace slog].
      destruct wr as [|r1 [|r2' wr]]; cbn [hd tl incoming wreplies trace slog];
        (eexists _, _, _; split; [reflexivity|]; split;
         [cbn [trace]; rewrite <- !app_assoc; reflexivity|reflexivity]). }
  destruct Hgen as (flow & w1 & evs & E & Ht & Hev).
  exists flow, w1, (copy (make (Z.to_nat L)) (rdata r2)), evs.
  split; [exact E|]. split; [exact Ht|].
  split; [rewrite length_copy; apply length_make|]. split.
  - intros Hnone Hle. split; [apply copy_make_le; exact Hle|].
    apply Hev; assumption.
  - intros -> Hnone. cbn [Z.to_nat] in *.
    assert (Hnil : copy (make 0) (rdata r2) = [])
      by (rewrite copy_make_le by (cbn; lia); reflexivity).
    rewrite Hnil in *. split; [reflexivity|].
    apply Hev; [exact Hnone|cbn; lia].
Qed.

(** A declared length of zero, and the largest one: each is followed by
    a read into a buffer of just that many bytes. *)
Lemma declared_length_is_not_checked_witness :
  (exists flow w1 evs,
      iteration_of demo.kafkaHandler
        (connect [ mkReadReply (BigEndian.PutUint32 0) None;
                   mkReadReply [] None ] [])
      = (flow, w1)
      /\ trace w1 = EvRead (BigEndian.PutUint32 0) 4 None
                    :: EvRead [] 0 None
                    :: evs
      /\ evs = response_events demo.kafkaHandler [] [])
  /\ (exists flow w1 payload evs,
         iteration_of demo.serverHandler
           (connect [ mkReadReply (BigEndian.PutUint32 4294967295) None;
                      mkReadReply [x12] None ] [])
         = (flow, w1)
         /\ trace w1 = EvRead (BigEndian.PutUint32 4294967295) 4 None
                       :: EvRead payload 1 None
                       :: evs
         /\ Z.of_nat (length payload) = 4294967295).
Proof.
  split.
  - destruct (declared_length_is_not_checked demo.kafkaHandler
                (connect [ mkReadReply (BigEndian.PutUint32 0) None;
                           mkReadReply [] None ] [])
                0 (mkReadReply [] None) [])
      as (flow & w1 & payload & evs & E & Ht & _ & _ & H0).
    + lia.
    + reflexivity.
    + destruct (H0 eq_refl eq_refl) as [-> ->].
      exists flow, w1, (response_events demo.kafkaHandler [] []).
      split; [exact E|]. split; [exact Ht|reflexivity].
  - destruct (declared_length_is_not_checked demo.serverHandler
                (connect [ mkReadReply (BigEndian.PutUint32 4294967295) None;
                           mkReadReply [x12] None ] [])
                4294967295 (mkReadReply [x12] None) [])
      as (flow & w1 & payload & evs & E & Ht & Hlen & _).
    + lia.
    + reflexivity.
    + exists flow, w1, payload, evs.
      split; [exact E|]. split; [|rewrite Hlen; apply Z2Nat.id; lia].
      rewrite Ht. cbn [trace connect app rdata rerr length].
      replace (Nat.min (Z.to_nat 4294967295) 1) with 1%nat
        by (symmetry; apply Nat.min_r; change 1%nat with (Z.to_nat 1);
            apply Z2Nat.inj_le; lia).
      reflexivity.
Defined.

(** ** The frame of a response in [server.run] *)

Section ServerResponse.
Import sarama.
Variable Request_Decode : list byte -> result Request.t.
Variable HandleRequest : Request.t -> result (list byte).

(** What [server.run] declares.  In a turn that answers a request, the
    first four bytes written are the big-endian value of the length of
    the response body plus 8 (modulo 2^32), and 8 is the length of the
    encoded response header: the length field itself and the
    correlation identifier. *)
Theorem response_length_prefix_is_body_plus_header
        (conn : World) (size payload : list byte) (rest : list ReadReply)
        (req : Request.t) (resp : list byte) :
  delivers_frame conn size payload rest ->
  Request_Decode payload = inr req ->
  HandleRequest req = inr resp ->
  exists w' headerBuf r1 r2,
    server.iteration Request_Decode HandleRequest conn = (Go tt, w')
    /\ trace w' = trace conn ++ [ EvRead size 4 None;
                                  EvRead payload (length payload) None;
                                  EvWrite headerBuf r1;
                                  EvWrite resp r2 ]
    /\ length headerBuf = 8%nat
    /\ BigEndian.Uint32 (firstn 4 headerBuf)
       = uint32 (Z.of_nat (length resp) + Z.of_nat (length headerBuf))
    /\ (Z.of_nat (length resp) + 8 < 2 ^ 32 ->
        BigEndian.Uint32 (firstn 4 headerBuf)
        = Z.of_nat (length resp) + Z.of_nat (length headerBuf)).
Proof.
  intros Hframe Hdec Hreq.
  destruct (server_iteration_frame Request_Decode HandleRequest conn size
              payload rest req resp Hframe Hdec Hreq)
    as (w' & E & _ & _ & Ht).
  eexists w', _, _, _. split; [exact E|]. split; [exact Ht|].
  split; [reflexivity|].
  change (firstn 4 (putInt32 (int32 (Z.of_nat (length resp) + 8))
                    ++ putInt32 (Request.CorrelationID req)))
    with (BigEndian.PutUint32 (uint32 (int32 (Z.of_nat (length resp) + 8)))).
  rewrite uint32_int32.
  rewrite Uint32_PutUint32
    by (unfold uint32; apply Z.mod_pos_bound; reflexivity).
  assert (Hlen : Z.of_nat (length (putInt32 (int32 (Z.of_nat (length resp) + 8))
                                   ++ putInt32 (Request.CorrelationID req)))
                 = 8) by reflexivity.
  rewrite Hlen. split; [reflexivity|].
  intros Hfit. unfold uint32. apply Z.mod_small. lia.
Qed.

(** The response header that [server.run] writes carries the
    correlation identifier of the request. *)
Lemma server_header_carries_correlation_id
      (conn : World) (size payload : list byte) (rest : list ReadReply)
      (req : Request.t) (resp : list byte) :
  delivers_frame conn size payload rest ->
  Request_Decode payload = inr req ->
  HandleRequest req = inr resp ->
  - 2 ^ 31 <= Request.CorrelationID req < 2 ^ 31 ->
  exists w' headerBuf r1 r2 hdr,
    server.iteration Request_Decode HandleRequest conn = (Go tt, w')
    /\ trace w' = trace conn ++ [ EvRead size 4 None;
                                  EvRead payload (length payload) None;
                                  EvWrite headerBuf r1;
                                  EvWrite resp r2 ]
    /\ Decode_ResponseHeaderStruct headerBuf = Some hdr
    /\ ResponseHeaderStruct.CorrelationID hdr = Request.CorrelationID req.
Proof.
  intros Hframe Hdec Hreq Hrange.
  destruct (server_iteration_frame Request_Decode HandleRequest conn size
              payload rest req resp Hframe Hdec Hreq)
    as (w' & E & _ & _ & Ht).
  eexists w', _, _, _, _. split; [exact E|]. split; [exact Ht|].
  split; [reflexivity|].
  cbn [ResponseHeaderStruct.CorrelationID].
  change (skipn 4 (putInt32 (int32 (Z.of_nat (length resp) + 8))
                   ++ putInt32 (Request.CorrelationID req)))
    with (putInt32 (Request.CorrelationID req) ++ []).
  apply getInt32_putInt32. exact Hrange.
Qed.

(** In [server.run] the results of the two writes are dropped: the
    turn goes round again whatever they were. *)
Lemma server_iteration_ignores_write_errors
      (conn : World) (size payload : list byte) (rest : list ReadReply)
      (req : Request.t) (resp : list byte) :
  delivers_frame conn size payload rest ->
  Request_Decode payload = inr req ->
  HandleRequest req = inr resp ->
  exists w',
    server.iteration Request_Decode HandleRequest conn = (Go tt, w')
    /\ incoming w' = rest.
Proof.
  intros Hframe Hdec Hreq.
  destruct (server_iteration_frame Request_Decode HandleRequest conn size
              payload rest req resp Hframe Hdec Hreq)
    as (w' & E & Hi & _).
  exists w'. split; assumption.
Qed.
End ServerResponse.

(** An ApiVersions request answered with a body of two bytes. *)
Lemma response_length_prefix_is_body_plus_header_witness :
  exists w' headerBuf r1 r2,
    server.iteration demo.Request_Decode (server.HandleRequest demo.encodeBody)
                     (connect demo.apiVersionsFrame [])
    = (Go tt, w')
    /\ trace w' = [ EvRead [x00; x00; x00; x05] 4 None;
                    EvRead [x12; x00; x00; x00; x01] 5 None;
                    EvWrite headerBuf r1;
                    EvWrite [x00; x12] r2 ]
    /\ BigEndian.Uint32 (firstn 4 headerBuf) = 2 + 8.
Proof.
  destruct (response_length_prefix_is_body_plus_header
              demo.Request_Decode (server.HandleRequest demo.encodeBody)
              (connect demo.apiVersionsFrame [])
              [x00; x00; x00; x05] [x12; x00; x00; x00; x01] []
              (sarama.Request.mk 1 "demo"
                 (sarama.ApiVersionsRequestBody
                    (sarama.ApiVersionsRequest.mk 3 "demo" "1")))
              [x00; x12])
    as (w' & headerBuf & r1 & r2 & E & Ht & Hlen & _ & Hpre).
  - repeat split.
  - reflexivity.
  - reflexivity.
  - exists w', headerBuf, r1, r2. split; [exact E|]. split; [exact Ht|].
    rewrite Hpre, Hlen by (cbn; lia). reflexivity.
Defined.

(** C4 on [server.run]: with [Length: int32(len(resp) + 8)] the frame
    written for a body of two bytes declares 10 bytes, and 6 bytes
    follow the length: the declared length is 4 more than what follows
    it, where the loop's own reading of requests, and the frame of
    [kafka.Handle] below, count the bytes after the length. *)
Lemma response_length_prefix_exceeds_following_bytes :
  exists w',
    server.iteration demo.Request_Decode (server.HandleRequest demo.encodeBody)
                     (connect demo.apiVersionsFrame [])
    = (Go tt, w')
    /\ written (trace w')
       = [x00; x00; x00; x0a; x00; x00; x00; x01; x00; x12]
    /\ BigEndian.Uint32 (firstn 4 (written (trace w'))) = 10
    /\ Z.of_nat (length (skipn 4 (written (trace w')))) = 6
    /\ ~ declared_length_matches (written (trace w')).
Proof.
  eexists. split; [vm_compute; reflexivity|].
  split; [vm_compute; reflexivity|].
  split; [vm_compute; reflexivity|]. split; [vm_compute; reflexivity|].
  unfold declared_length_matches. vm_compute. discriminate.
Qed.

(** The frame of a response in package [kafka]: the declared length is
    the number of bytes that follow it. *)
Lemma kafka_response_declared_length_matches
      (encodeBody : sarama.ProtocolBody -> result (list byte))
      (resp : sarama.Response.t) (encodedResp : list byte) :
  sarama.Encode_Response encodeBody resp = inr encodedResp ->
  Z.of_nat (length encodedResp) < 2 ^ 32 ->
  declared_length_matches encodedResp.
Proof.
  unfold sarama.Encode_Response.
  destruct (encodeBody (sarama.Response.Body resp)) as [e|body];
    [discriminate|].
  set (len := sarama.putInt32 (Z.of_nat (length body) + 4)).
  set (cid := sarama.putInt32 (sarama.Response.CorrelationID resp)).
  intros H.
  assert (E : encodedResp = len ++ cid ++ body) by congruence.
  rewrite E. clear H E. intros Hfit. unfold declared_length_matches.
  change (firstn 4 (len ++ cid ++ body))
    with (BigEndian.PutUint32 (uint32 (Z.of_nat (length body) + 4))).
  change (skipn 4 (len ++ cid ++ body)) with (cid ++ body).
  assert (Hlen : Z.of_nat (length (len ++ cid ++ body))
                 = Z.of_nat (length body) + 8).
  { rewrite !length_app. subst len cid. unfold sarama.putInt32.
    rewrite !length_PutUint32. lia. }
  rewrite Hlen in Hfit.
  assert (Hu : uint32 (Z.of_nat (length body) + 4)
               = Z.of_nat (length body) + 4)
    by (unfold uint32; apply Z.mod_small; lia).
  rewrite Hu, Uint32_PutUint32 by lia.
  rewrite length_app. subst cid. unfold sarama.putInt32.
  rewrite length_PutUint32. lia.
Qed.

(** The same request through [kafka.Handle]: 6 bytes declared, 6 bytes
    follow. *)
Lemma kafka_frame_declares_following_bytes :
  demo.kafkaApi [x12; x00; x00; x00; x01]
  = inr [x00; x00; x00; x06; x00; x00; x00; x01; x00; x12]
  /\ declared_length_matches
       [x00; x00; x00; x06; x00; x00; x00; x01; x00; x12].
Proof.
  split; [reflexivity|].
  unfold declared_length_matches. vm_compute. reflexivity.
Qed.

(** ** Write errors *)

Section KafkaWrite.
Variable Handle : list byte -> result (list byte).

(** In [kafka.run] an error of the write of the response ends the
    loop: the next call on the connection is the close. *)
Lemma kafka_write_error_is_fatal
      (conn : World) (size payload resp : list byte)
      (rest : list ReadReply) (e : error) (fuel : nat) :
  delivers_frame conn size payload rest ->
  Handle payload = inr resp ->
  hd None (wreplies conn) = Some e ->
  exists w',
    kafka.HandleConnection Handle (S fuel) conn = Returned w'
    /\ incoming w' = rest
    /\ trace w' = trace conn ++ [ EvRead size 4 None;
                                  EvRead payload (length payload) None;
                                  EvWrite resp (Some e);
                                  EvClose ].
Proof.
  intros Hframe HH Hw.
  destruct (kafka_iteration_frame Handle conn size payload rest Hframe)
    as (w1 & Hi & H).
  rewrite HH, Hw in H. destruct H as (Ht & _ & E).
  exists (conn_Close w1). split; [|split].
  - unfold kafka.HandleConnection, kafka.run.
    apply with_deferred_Close_Ret. exact E.
  - exact Hi.
  - rewrite trace_conn_Close, Ht, <- app_assoc. reflexivity.
Qed.
End KafkaWrite.

(** C7 on [server.run]: both writes of the first response fail with a
    broken pipe, and the handler goes on to read, answer and write the
    second request before the end of the stream makes it close. *)
Theorem server_run_reads_on_after_failed_write :
  exists w',
    server.HandleConnection demo.Request_Decode
      (server.HandleRequest demo.encodeBody) 3
      (connect (demo.apiVersionsFrame ++ demo.apiVersionsFrame)
               [Some demo.brokenPipe; Some demo.brokenPipe])
    = Returned w'
    /\ trace w'
       = [ EvRead [x00; x00; x00; x05] 4 None;
           EvRead [x12; x00; x00; x00; x01] 5 None;
           EvWrite [x00; x00; x00; x0a; x00; x00; x00; x01]
                   (Some demo.brokenPipe);
           EvWrite [x00; x12] (Some demo.brokenPipe);
           EvRead [x00; x00; x00; x05] 4 None;
           EvRead [x12; x00; x00; x00; x01] 5 None;
           EvWrite [x00; x00; x00; x0a; x00; x00; x00; x01] None;
           EvWrite [x00; x12] None;
           EvRead [x00; x00; x00; x00] 0 (Some io_EOF);
           EvClose ].
Proof. eexists. split; vm_compute; reflexivity. Qed.

(** The same connection under [kafka.run]: the failed write is the last
    call before the close. *)
Lemma kafka_run_stops_after_failed_write :
  exists w',
    kafka.HandleConnection demo.kafkaApi 3
      (connect (demo.apiVersionsFrame ++ demo.apiVersionsFrame)
               [Some demo.brokenPipe; Some demo.brokenPipe])
    = Returned w'
    /\ trace w'
       = [ EvRead [x00; x00; x00; x05] 4 None;
           EvRead [x12; x00; x00; x00; x01] 5 None;
           EvWrite [x00; x00; x00; x06; x00; x00; x00; x01; x00; x12]
                   (Some demo.brokenPipe);
           EvClose ].
Proof. eexists. split; vm_compute; reflexivity. Qed.

(** ** The accept loop of [TCPServer] *)

Section AcceptLoop.
Import server.

Lemma accept_iteration_error (w w1 : ServerWorld) (err : error) :
  l_Accept w = (Go (inl err), w1) ->
  accept_iteration w
  = (Ret,
     emit (if errors_Is_ErrClosed err
           then EvLog LevelDebug
                      "Connection closed, can't accept new connections"
           else EvLog LevelError "Failed to accept TCP connection") w1).
Proof.
  intros E. unfold accept_iteration, bind. rewrite E.
  destruct (errors_Is_ErrClosed err); reflexivity.
Qed.

Lemma l_Accept_trace (w w1 : ServerWorld) (r : result ConnId) :
  l_Accept w = (Go r, w1) ->
  strace w1 = strace w ++ [EvAccept r]
  /\ (lclosed (socket w) = false ->
      backlog (socket w) = r :: backlog (socket w1)).
Proof.
  unfold l_Accept. destruct (lclosed (socket w)).
  - intros [= <- <-]. split; [reflexivity|discriminate].
  - destruct (backlog (socket w)) as [|r' rest]; [discriminate|].
    intros [= <- <-]. split; reflexivity.
Qed.

(** [Stop] on a running server closes the listening socket, and the
    [Accept] that this unblocks answers the listener-closed
    condition. *)
Lemma Stop_unblocks_Accept (w : ServerWorld) :
  s_l w = true ->
  lclosed (socket w) = false ->
  exists w1 w2 err,
    Stop w = (None, w1)
    /\ l_Accept w1 = (Go (inl err), w2)
    /\ errors_Is_ErrClosed err = true.
Proof.
  intros Hl Hopen. unfold Stop, l_Close, emit. cbn [s_l socket].
  rewrite Hl, Hopen. cbn [negb].
  eexists _, _, _. split; [reflexivity|].
  unfold l_Accept. cbn [socket lclosed]. split; reflexivity.
Qed.

(** C8.  When [Accept] returns an error the accept loop ends in that
    very turn, with no further [Accept].  If the error is the
    listener-closed condition, the only record made is one at debug
    level; for every other error it is one at error level. *)
Theorem accept_loop_ends_on_accept_error
        (w w1 : ServerWorld) (err : error) (fuel : nat) :
  l_Accept w = (Go (inl err), w1) ->
  exists w',
    accept_loop (S fuel) w = Returned w'
    /\ socket w' = socket w1
    /\ strace w'
       = strace w
         ++ [ EvAccept (inl err);
              if errors_Is_ErrClosed err
              then EvLog LevelDebug
                         "Connection closed, can't accept new connections"
              else EvLog LevelError "Failed to accept TCP connection" ].
Proof.
  intros E. eexists. split; [|split].
  - unfold accept_loop. cbn [for_loop].
    rewrite (accept_iteration_error w w1 err E). reflexivity.
  - reflexivity.
  - destruct (l_Accept_trace w w1 (inl err) E) as [Ht _].
    unfold emit; cbn [strace]. rewrite Ht, <- app_assoc. reflexivity.
Qed.
End AcceptLoop.

(** An accept that fails with "too many open files" ends the loop with
    one record at error level; the client waiting behind it is never
    accepted. *)
Lemma accept_loop_ends_on_accept_error_witness :
  exists w',
    server.accept_loop 1 demo_server.listening = Returned w'
    /\ server.backlog (server.socket w') = [inr 7%nat]
    /\ server.strace w'
       = [ server.EvAccept (inl demo_server.tooManyOpenFiles);
           server.EvLog LevelError "Failed to accept TCP connection" ].
Proof.
  destruct (accept_loop_ends_on_accept_error
              demo_server.listening
              (server.mkServerWorld
                 (server.mkListener [inr 7%nat] false) true
                 [server.EvAccept (inl demo_server.tooManyOpenFiles)])
              demo_server.tooManyOpenFiles 0 eq_refl)
    as (w' & E & Hs & Ht).
  exists w'. split; [exact E|]. split; [rewrite Hs; reflexivity|exact Ht].
Defined.

(** After [Stop] the loop leaves with one record at debug level. *)
Lemma accept_loop_after_Stop :
  exists w',
    server.accept_loop 1 (snd (server.Stop demo_server.listening))
    = Returned w'
    /\ server.strace w'
       = [ server.EvLog LevelDebug "Stopping TCP server";
           server.EvAccept (inl (net_OpError "accept" net_ErrClosed));
           server.EvLog LevelDebug
                        "Connection closed, can't accept new connections" ].
Proof. eexists. split; vm_compute; reflexivity. Qed.

(* ================================================================== *)
(** * Further properties *)

(** ** What the connection loops log and leave unread *)

Lemma error_records_app (a b : list (Level * string)) :
  error_records (a ++ b) = error_records a ++ error_records b.
Proof. unfold error_records. apply flat_map_app. Qed.

Ltac solve_records :=
  cbn [slog trace incoming wreplies conn_Close record];
  rewrite ?error_records_app, ?written_app;
  cbn [error_records flat_map fst snd app written];
  rewrite ?app_nil_r, <- ?app_assoc; cbn [app]; try reflexivity.

(** Unfolds one run of a handler down to the first read. *)
Ltac exec_first_read h :=
  rewrite HandleConnection_of_eq; unfold with_deferred_Close;
  cbn [for_loop];
  destruct h as [Handle|Decode HandleRequest]; cbn [iteration_of];
  [unfold kafka.iteration|unfold server.iteration];
  unfold bind, slog_Debug, slog_Error, conn_Read, record, return_, ret;
  cbn [incoming wreplies trace slog rdata rerr].

(** X1.  When the read of the length fails, [kafka.run] makes no record
    at error level if the error is [io.EOF] and one record otherwise;
    [server.run] makes the record for [io.EOF] as well.  Either way
    nothing is written and the connection is closed. *)
Theorem size_read_error_records (h : Handler) (conn : World)
        (data : list byte) (e : error) (rest : list ReadReply) (fuel : nat) :
  incoming conn = mkReadReply data (Some e) :: rest ->
  exists w',
    HandleConnection_of h (S fuel) conn = Returned w'
    /\ error_records (slog w')
       = error_records (slog conn)
         ++ match h with
            | KafkaHandler _ =>
                if is_EOF e then []
                else ["Failed to read request message size from connection"]
            | ServerHandler _ _ =>
                ["Failed to read request message size from connection"]
            end
    /\ written (trace w') = written (trace conn)
    /\ count_Close (trace w') = S (count_Close (trace conn)).
Proof.
  intros Hinc.
  destruct conn as [inc wr tr sl]; cbn [incoming] in Hinc; subst inc.
  exec_first_read h.
  - destruct (is_EOF e); eexists; (split; [reflexivity|]);
      (split; [solve_records|]); (split; [solve_records|]);
      cbn [trace conn_Close record]; rewrite !count_Close_app; cbn; lia.
  - eexists; (split; [reflexivity|]);
      (split; [solve_records|]); (split; [solve_records|]);
      cbn [trace conn_Close record]; rewrite !count_Close_app; cbn; lia.
Qed.

(** The peer hangs up on [kafka.run]: no record at error level. *)
Lemma size_read_error_records_witness :
  exists w',
    HandleConnection_of demo.kafkaHandler 1
      (connect [mkReadReply [] (Some io_EOF)] []) = Returned w'
    /\ error_records (slog w') = []
    /\ written (trace w') = [].
Proof.
  destruct (size_read_error_records demo.kafkaHandler
              (connect [mkReadReply [] (Some io_EOF)] [])
              [] io_EOF [] 0 eq_refl)
    as (w' & E & Hl & Hw & _).
  exists w'. split; [exact E|]. split; [exact Hl|exact Hw].
Defined.

(** X2.  When the length was read and the read of the payload reports
    an error or brings fewer bytes than declared, both handlers leave
    the loop with one record at error level: nothing is written, what
    the peer sent after it stays unread, and the connection is closed. *)
Theorem body_read_failure_is_fatal (h : Handler) (conn : World)
        (size : list byte) (r2 : ReadReply) (rest : list ReadReply)
        (fuel : nat) :
  incoming conn = mkReadReply size None :: r2 :: rest ->
  length size = 4%nat ->
  rerr r2 <> None
  \/ (length (rdata r2) < Z.to_nat (BigEndian.Uint32 size))%nat ->
  exists w',
    HandleConnection_of h (S fuel) conn = Returned w'
    /\ trace w'
       = trace conn
         ++ [ EvRead size 4 None;
              EvRead (copy (make (Z.to_nat (BigEndian.Uint32 size))) (rdata r2))
                     (Nat.min (Z.to_nat (BigEndian.Uint32 size))
                              (length (rdata r2)))
                     (rerr r2);
              EvClose ]
    /\ incoming w' = rest
    /\ error_records (slog w')
       = error_records (slog conn)
         ++ ["Failed to read request from connection"].
Proof.
  intros Hinc Hsz Hbad.
  destruct conn as [inc wr tr sl]; cbn [incoming] in Hinc; subst inc.
  assert (Hn : rerr r2 = None ->
               (Z.of_nat (Nat.min (Z.to_nat (BigEndian.Uint32 size))
                                  (length (rdata r2)))
                =? BigEndian.Uint32 size) = false).
  { intros Hnone. destruct Hbad as [Hbad|Hbad]; [contradiction|].
    apply Z.eqb_neq. pose proof (Uint32_range size). lia. }
  exec_first_read h;
    rewrite length_make, Hsz, (copy_make_length _ 4 Hsz);
    cbn [Nat.min Nat.eqb negb incoming wreplies trace slog rdata rerr];
    rewrite length_make;
    (destruct (rerr r2) as [e|]; [|rewrite (Hn eq_refl)]); cbn [negb];
    eexists; (split; [reflexivity|]);
    (split; [cbn [trace conn_Close record]; rewrite <- !app_assoc;
             reflexivity|]);
    (split; [reflexivity|solve_records]).
Qed.

(** A frame that declares five bytes and brings three. *)
Lemma body_read_failure_is_fatal_witness :
  exists w',
    HandleConnection_of demo.kafkaHandler 1
      (connect [ mkReadReply [x00; x00; x00; x05] None;
                 mkReadReply [x12; x00; x00] None ] [])
    = Returned w'
    /\ trace w' = [ EvRead [x00; x00; x00; x05] 4 None;
                    EvRead [x12; x00; x00; x00; x00] 3 None;
                    EvClose ]
    /\ error_records (slog w') = ["Failed to read request from connection"].
Proof.
  destruct (body_read_failure_is_fatal demo.kafkaHandler
              (connect [ mkReadReply [x00; x00; x00; x05] None;
                         mkReadReply [x12; x00; x00] None ] [])
              [x00; x00; x00; x05] (mkReadReply [x12; x00; x00] None) [] 0
              eq_refl eq_refl)
    as (w' & E & Ht & _ & Hl).
  - right. vm_compute. lia.
  - exists w'. split; [exact E|]. split; [exact Ht|exact Hl].
Defined.

Section KafkaFrameRecords.
Variable Handle : list byte -> result (list byte).

Lemma kafka_iteration_frame_records (w : World) (size payload : list byte)
      (rest : list ReadReply) :
  delivers_frame w size payload rest ->
  exists w',
    incoming w' = rest
    /\ match Handle payload with
       | inl _ =>
           kafka.iteration Handle w = (Ret, w')
           /\ trace w' = trace w ++ [ EvRead size 4 None;
                                      EvRead payload (length payload) None ]
           /\ wreplies w' = wreplies w
           /\ error_records (slog w')
              = error_records (slog w) ++ ["Failed to handle request"]
       | inr resp =>
           trace w' = trace w ++ [ EvRead size 4 None;
                                   EvRead payload (length payload) None;
                                   EvWrite resp (hd None (wreplies w)) ]
           /\ wreplies w' = tl (wreplies w)
           /\ kafka.iteration Handle w
              = (match hd None (wreplies w) with
                 | None => Go tt
                 | Some _ => Ret
                 end, w')
           /\ error_records (slog w')
              = error_records (slog w)
                ++ match hd None (wreplies w) with
                   | None => []
                   | Some _ => ["Failed to write response to connection"]
                   end
       end.
Proof.
  intros Hframe. unfold kafka.iteration.
  exec_frame_reads w Hframe.
  destruct (Handle payload) as [e|resp].
  - eexists; split; [|split; [reflexivity|split; [|split]]];
      cbn [incoming trace wreplies]; rewrite <- ?app_assoc;
      try reflexivity; solve_records.
  - unfold conn_Write, record; cbn [incoming wreplies trace slog].
    destruct wr as [|[e|] wr]; cbn [hd tl];
      (eexists; split; [|split; [|split; [|split; [reflexivity|]]]];
       cbn [incoming trace wreplies]; rewrite <- ?app_assoc;
       try reflexivity; solve_records).
Qed.

Lemma kafka_iteration_hung_up (w : World) :
  incoming w = [] ->
  exists w',
    kafka.iteration Handle w = (Ret, w')
    /\ trace w' = trace w ++ [ EvRead (make 4) 0 (Some io_EOF) ]
    /\ error_records (slog w') = error_records (slog w).
Proof.
  intros Hinc. destruct w as [inc wr tr sl]; cbn [incoming] in Hinc; subst inc.
  unfold kafka.iteration, bind, slog_Debug, slog_Error, conn_Read, record,
    return_, ret.
  cbn [incoming wreplies trace slog is_EOF].
  eexists; split; [reflexivity|]. split; [reflexivity|solve_records].
Qed.

(** X3.  Whenever the request handler of [kafka.run] returns an error
    for a payload (it cannot be decoded, has no handler, is of the
    wrong type, or the response cannot be encoded), the loop is left
    with the record "Failed to handle request": nothing is written for
    the request, later frames stay unread, the connection is closed. *)
Theorem handler_error_closes_without_response
        (conn : World) (size payload : list byte) (rest : list ReadReply)
        (e : error) (fuel : nat) :
  delivers_frame conn size payload rest ->
  Handle payload = inl e ->
  exists w',
    kafka.run Handle (S fuel) conn = Returned w'
    /\ trace w' = trace conn ++ [ EvRead size 4 None;
                                  EvRead payload (length payload) None;
                                  EvClose ]
    /\ written (trace w') = written (trace conn)
    /\ incoming w' = rest
    /\ error_records (slog w')
       = error_records (slog conn) ++ ["Failed to handle request"].
Proof.
  intros Hframe HH.
  destruct (kafka_iteration_frame_records conn size payload rest Hframe)
    as (w1 & Hi & H).
  rewrite HH in H. destruct H as (E & Ht & _ & Hl).
  exists (conn_Close w1).
  assert (Htr : trace (conn_Close w1)
                = trace conn ++ [ EvRead size 4 None;
                                  EvRead payload (length payload) None;
                                  EvClose ])
    by (rewrite trace_conn_Close, Ht, <- app_assoc; reflexivity).
  split; [|split; [exact Htr|split; [|split]]].
  - unfold kafka.run. apply with_deferred_Close_Ret. exact E.
  - rewrite Htr, written_app. cbn [written]. apply app_nil_r.
  - exact Hi.
  - exact Hl.
Qed.

(** X5.  When the write of a response fails, [kafka.run] leaves the
    loop with the record "Failed to write response to connection": the
    failed write is its last call before the close, and the requests
    the client sent after this one stay unread. *)
Theorem failed_write_ends_kafka_run
        (conn : World) (size payload resp : list byte)
        (rest : list ReadReply) (e : error) (fuel : nat) :
  delivers_frame conn size payload rest ->
  Handle payload = inr resp ->
  hd None (wreplies conn) = Some e ->
  exists w',
    kafka.run Handle (S fuel) conn = Returned w'
    /\ trace w' = trace conn ++ [ EvRead size 4 None;
                                  EvRead payload (length payload) None;
                                  EvWrite resp (Some e);
                                  EvClose ]
    /\ incoming w' = rest
    /\ count_writes_ok (trace w') = count_writes_ok (trace conn)
    /\ error_records (slog w')
       = error_records (slog conn)
         ++ ["Failed to write response to connection"].
Proof.
  intros Hframe HH Hw.
  destruct (kafka_iteration_frame_records conn size payload rest Hframe)
    as (w1 & Hi & H).
  rewrite HH, Hw in H. destruct H as (Ht & _ & E & Hl).
  exists (conn_Close w1).
  assert (Htr : trace (conn_Close w1)
                = trace conn ++ [ EvRead size 4 None;
                                  EvRead payload (length payload) None;
                                  EvWrite resp (Some e);
                                  EvClose ])
    by (rewrite trace_conn_Close, Ht, <- app_assoc; reflexivity).
  split; [|split; [exact Htr|split; [exact Hi|split; [|exact Hl]]]].
  - unfold kafka.run. apply with_deferred_Close_Ret. exact E.
  - rewrite Htr.
    destruct (counts_app (trace conn)
                [ EvRead size 4 None; EvRead payload (length payload) None;
                  EvWrite resp (Some e); EvClose ]) as [_ ->].
    cbn. lia.
Qed.

Lemma kafka_loop_session (payloads responses : list (list byte)) :
  Forall2 (fun p r => Handle p = inr r) payloads responses ->
  Forall (fun p => Z.of_nat (length p) < 2 ^ 32) payloads ->
  forall (w : World) (fuel : nat),
    incoming w = session payloads ->
    wreplies w = [] ->
    (length payloads < fuel)%nat ->
    exists w',
      for_loop (kafka.iteration Handle) fuel w = Returned w'
      /\ written (trace w') = written (trace w) ++ concat responses
      /\ count_reads (trace w')
         = (count_reads (trace w) + 2 * length payloads + 1)%nat
      /\ count_writes_ok (trace w')
         = (count_writes_ok (trace w) + length payloads)%nat
      /\ count_Close (trace w') = count_Close (trace w)
      /\ error_records (slog w') = error_records (slog w).
Proof.
  induction 1 as [|p r payloads responses Hp Hall IH];
    intros Hsmall w fuel Hinc Hwr Hfuel.
  - destruct fuel as [|fuel]; [lia|]. cbn [for_loop].
    destruct (kafka_iteration_hung_up w Hinc) as (w' & E & Ht & Hl).
    rewrite E. exists w'. split; [reflexivity|].
    rewrite Ht, written_app, count_Close_app.
    destruct (counts_app (trace w) [EvRead (make 4) 0 (Some io_EOF)])
      as [-> ->].
    cbn. rewrite !app_nil_r. repeat split; try lia. exact Hl.
  - destruct fuel as [|fuel]; [lia|]. cbn [for_loop].
    inversion Hsmall as [|p' ps' Hlen Hsmall']; subst.
    assert (Hframe : delivers_frame w
                       (BigEndian.PutUint32 (Z.of_nat (length p))) p
                       (session payloads)).
    { split; [exact Hinc|]. split; [reflexivity|].
      symmetry. apply Uint32_PutUint32. lia. }
    destruct (kafka_iteration_frame_records w _ p _ Hframe)
      as (w1 & Hi & H).
    rewrite Hp, Hwr in H. cbn [hd tl] in H.
    destruct H as (Ht & Hw1 & E & Hl). rewrite E.
    destruct (IH Hsmall' w1 fuel Hi Hw1) as (w' & E' & Hwt & Hr & Hwo & Hc & Hl');
      [cbn [length] in Hfuel; lia|].
    exists w'. split; [exact E'|].
    rewrite Hwt, Hr, Hwo, Hc, Hl', Hl, Ht, written_app, count_Close_app.
    destruct (counts_app (trace w)
                [ EvRead (BigEndian.PutUint32 (Z.of_nat (length p))) 4 None;
                  EvRead p (length p) None; EvWrite r None ]) as [-> ->].
    cbn [written concat length count_reads count_writes_ok count_Close
         filter is_Read is_Write_ok is_Close app].
    rewrite !app_nil_r, <- !app_assoc.
    repeat split; try lia.
Qed.

(** X4.  A client that sends any number of requests, each handled and
    written without error, and then hangs up: [kafka.run] returns, the
    bytes written are the responses of the handler in the order of the
    requests, one write per request and two reads per request plus the
    last one, no record at error level, and one close at the end. *)
Theorem kafka_run_serves_session
        (payloads responses : list (list byte)) (fuel : nat) :
  Forall2 (fun p r => Handle p = inr r) payloads responses ->
  Forall (fun p => Z.of_nat (length p) < 2 ^ 32) payloads ->
  (length payloads < fuel)%nat ->
  exists w',
    kafka.run Handle fuel (connect (session payloads) []) = Returned w'
    /\ written (trace w') = concat responses
    /\ count_reads (trace w') = (2 * length payloads + 1)%nat
    /\ count_writes_ok (trace w') = length payloads
    /\ count_Close (trace w') = 1%nat
    /\ error_records (slog w') = [].
Proof.
  intros Hall Hsmall Hfuel.
  destruct (kafka_loop_session payloads responses Hall Hsmall
              (connect (session payloads) []) fuel eq_refl eq_refl Hfuel)
    as (w1 & E & Hwt & Hr & Hwo & Hc & Hl).
  exists (conn_Close w1). unfold kafka.run, with_deferred_Close.
  rewrite E. split; [reflexivity|].
  rewrite trace_conn_Close, written_app, count_Close_app.
  destruct (counts_app (trace w1) [EvClose]) as [-> ->].
  rewrite Hwt, Hr, Hwo, Hc. cbn. rewrite !app_nil_r.
  repeat split; try lia. exact Hl.
Qed.
End KafkaFrameRecords.

(** The payload that cannot be decoded by the stand-in codec. *)
Lemma handler_error_closes_without_response_witness :
  exists w',
    kafka.run demo.kafkaApi 1
      (connect [ mkReadReply [x00; x00; x00; x02] None;
                 mkReadReply [x12; x00] None;
                 mkReadReply [x00; x00; x00; x05] None ] [])
    = Returned w'
    /\ written (trace w') = []
    /\ incoming w' = [ mkReadReply [x00; x00; x00; x05] None ].
Proof.
  destruct (handler_error_closes_without_response demo.kafkaApi
              (connect [ mkReadReply [x00; x00; x00; x02] None;
                         mkReadReply [x12; x00] None;
                         mkReadReply [x00; x00; x00; x05] None ] [])
              [x00; x00; x00; x02] [x12; x00]
              [ mkReadReply [x00; x00; x00; x05] None ]
              (fmt_Errorf "failed to decode request"
                 (errors_New "insufficient data to decode packet")) 0)
    as (w' & E & _ & Hw & Hi & _).
  - repeat split.
  - reflexivity.
  - exists w'. split; [exact E|]. split; [exact Hw|exact Hi].
Defined.

(** Three requests through a handler that echoes the payload. *)
Lemma kafka_run_serves_session_witness :
  exists w',
    kafka.run demo2.echo 4
      (connect (session [[x01]; []; [x02; x03]]) []) = Returned w'
    /\ written (trace w') = [x01; x02; x03]
    /\ count_writes_ok (trace w') = 3%nat.
Proof.
  destruct (kafka_run_serves_session demo2.echo
              [[x01]; []; [x02; x03]] [[x01]; []; [x02; x03]] 4)
    as (w' & E & Hw & _ & Hwo & _).
  - repeat constructor.
  - repeat constructor.
  - cbn. lia.
  - exists w'. split; [exact E|]. split; [exact Hw|exact Hwo].
Defined.

(** The first response cannot be written: the second request is never
    read. *)
Lemma failed_write_ends_kafka_run_witness :
  exists w',
    kafka.run demo.kafkaApi 1
      (connect (demo.apiVersionsFrame ++ demo.apiVersionsFrame)
               [Some demo.brokenPipe])
    = Returned w'
    /\ incoming w' = demo.apiVersionsFrame
    /\ count_writes_ok (trace w') = 0%nat.
Proof.
  destruct (failed_write_ends_kafka_run demo.kafkaApi
              (connect (demo.apiVersionsFrame ++ demo.apiVersionsFrame)
                       [Some demo.brokenPipe])
              [x00; x00; x00; x05] [x12; x00; x00; x00; x01]
              [x00; x00; x00; x06; x00; x00; x00; x01; x00; x12]
              demo.apiVersionsFrame demo.brokenPipe 0)
    as (w' & E & _ & Hi & Hw & _).
  - repeat split.
  - reflexivity.
  - reflexivity.
  - exists w'. split; [exact E|]. split; [exact Hi|exact Hw].
Defined.

(** ** The request handler [kafkaApi] *)

Section KafkaApiOutcomes.
Import sarama.
Variable Request_Decode : list byte -> result Request.t.
Variable encodeBody : ProtocolBody -> result (list byte).
Variable ResponseHeaderVersion : Z.
Variable ApiVersionsRequestVersion : Z.

Let dispatch' := kafka.dispatch ResponseHeaderVersion ApiVersionsRequestVersion.
Let Handle' := kafka.Handle Request_Decode encodeBody ResponseHeaderVersion
                            ApiVersionsRequestVersion.
Let answer : ApiVersionsResponse.t :=
  ApiVersionsResponse.mk
    [ ApiVersionsResponseKey.mk kafka.ApiVersionsApiKey
                                ApiVersionsRequestVersion
                                ApiVersionsRequestVersion ]
    ApiVersionsRequestVersion 0.

Lemma dispatch_cases (req : Request.t) :
  match Request.Body req with
  | ApiVersionsRequestBody _ =>
      dispatch' req
      = inr (Response.mk (Request.CorrelationID req) ResponseHeaderVersion
                         (ApiVersionsResponseBody answer))
  | OtherBody key _ =>
      dispatch' req
      = inl (errors_New (if key =? kafka.ApiVersionsApiKey
                         then "invalid request type"
                         else "no handler found for request"))
  | ApiVersionsResponseBody _ =>
      dispatch' req = inl (errors_New "invalid request type")
  end.
Proof.
  unfold dispatch', kafka.dispatch.
  destruct (Request.Body req) as [a|r|key version]; cbn [APIKey];
    try reflexivity.
  destruct (key =? kafka.ApiVersionsApiKey); reflexivity.
Qed.

(** X7.  [dispatch] has three outcomes, decided by the body alone: an
    [ApiVersionsRequest] gets the response with the request's
    correlation identifier and the fixed body; any other body that
    answers the ApiVersions key fails with "invalid request type"; a
    body with any other key fails with "no handler found for
    request". *)
Theorem dispatch_outcomes (req : Request.t) :
  match Request.Body req with
  | ApiVersionsRequestBody _ =>
      dispatch' req
      = inr (Response.mk (Request.CorrelationID req) ResponseHeaderVersion
                         (ApiVersionsResponseBody answer))
  | body =>
      dispatch' req
      = inl (errors_New (if APIKey body =? kafka.ApiVersionsApiKey
                         then "invalid request type"
                         else "no handler found for request"))
  end.
Proof.
  unfold dispatch', kafka.dispatch.
  destruct (Request.Body req) as [a|r|key version]; cbn [APIKey].
  - reflexivity.
  - reflexivity.
  - destruct (key =? kafka.ApiVersionsApiKey); reflexivity.
Qed.

(** X6.  [Handle] returns bytes exactly when the payload decodes to a
    request whose body is an [ApiVersionsRequest] and the response can
    be encoded; the bytes are then the encoding of the response with the
    request's correlation identifier and the fixed body. *)
Theorem Handle_succeeds_iff (encodedRequest encodedResp : list byte) :
  Handle' encodedRequest = inr encodedResp
  <-> exists req a,
      Request_Decode encodedRequest = inr req
      /\ Request.Body req = ApiVersionsRequestBody a
      /\ Encode_Response encodeBody
           (Response.mk (Request.CorrelationID req) ResponseHeaderVersion
                        (ApiVersionsResponseBody answer))
         = inr encodedResp.
Proof.
  unfold Handle', kafka.Handle. split.
  - destruct (Request_Decode encodedRequest) as [e|req]; [discriminate|].
    pose proof (dispatch_cases req) as Hd. fold dispatch'.
    destruct (Request.Body req) as [a|r|key version] eqn:Eb;
      rewrite Hd; try discriminate.
    destruct (Encode_Response encodeBody _) as [e|enc] eqn:Ee;
      [discriminate|].
    intros [= <-]. exists req, a. repeat split; assumption.
  - intros (req & a & Hdec & Hb & He). rewrite Hdec.
    pose proof (dispatch_cases req) as Hd. fold dispatch'.
    rewrite Hb in Hd. rewrite Hd, He. reflexivity.
Qed.

(** X8.  The earlier [metadataManager.ShouldHandle] and the switch of
    [dispatch] agree on which requests have a handler: [dispatch] fails
    with "no handler found for request" exactly when [ShouldHandle]
    answers false. *)
Theorem ShouldHandle_agrees_with_dispatch (req : Request.t) :
  dispatch' req = inl (errors_New "no handler found for request")
  <-> metadata_manager.ShouldHandle req = false.
Proof.
  pose proof (dispatch_cases req) as Hd.
  unfold metadata_manager.ShouldHandle.
  change metadata_manager.ApiVersionsApiKey with kafka.ApiVersionsApiKey.
  destruct (Request.Body req) as [a|r|key version]; cbn [APIKey];
    rewrite Hd.
  - split; discriminate.
  - split; discriminate.
  - destruct (key =? kafka.ApiVersionsApiKey); split;
      try discriminate; reflexivity.
Qed.
End KafkaApiOutcomes.

(** A body that answers key 18 and is no [ApiVersionsRequest]. *)
Lemma dispatch_outcomes_witness :
  kafka.dispatch 0 3 demo2.mistyped = inl (errors_New "invalid request type").
Proof. exact (dispatch_outcomes 0 3 demo2.mistyped). Defined.

(** The ApiVersions request of the stand-in codec is answered. *)
Lemma Handle_succeeds_iff_witness :
  exists req a,
    demo.Request_Decode [x12; x00; x00; x00; x01] = inr req
    /\ sarama.Request.Body req = sarama.ApiVersionsRequestBody a
    /\ sarama.Request.CorrelationID req = 1.
Proof.
  destruct (proj1 (Handle_succeeds_iff demo.Request_Decode demo.encodeBody 0 3
                     [x12; x00; x00; x00; x01]
                     [x00; x00; x00; x06; x00; x00; x00; x01; x00; x12])
                  eq_refl)
    as (req & a & Hdec & Hb & _).
  exists req, a. split; [exact Hdec|]. split; [exact Hb|].
  revert Hdec. vm_compute. intros [= <-]. reflexivity.
Defined.

(** A request with key 0: no handler, and [ShouldHandle] says so. *)
Lemma ShouldHandle_agrees_with_dispatch_witness :
  metadata_manager.ShouldHandle
    (sarama.Request.mk 2 "demo" (sarama.OtherBody 0 0)) = false.
Proof.
  apply (proj1 (ShouldHandle_agrees_with_dispatch 0 3
                  (sarama.Request.mk 2 "demo" (sarama.OtherBody 0 0)))).
  reflexivity.
Defined.

(** ** The connection handler of package [server] *)

Section ServerRun.
Import sarama.
Variable Request_Decode : list byte -> result Request.t.
Variable HandleRequest : Request.t -> result (list byte).

Lemma server_iteration_shape (w : World) :
  exists evs w',
    trace w' = trace w ++ evs
    /\ ((server.iteration Request_Decode HandleRequest w = (Go tt, w')
         /\ server_exchange Request_Decode HandleRequest evs)
        \/ (server.iteration Request_Decode HandleRequest w = (Ret, w')
            /\ server_aborted Request_Decode HandleRequest evs)).
Proof.
  unfold server.iteration, bind.
  step_log. step_read size n err.
  destruct err as [e|].
  { step_log. eexists _, _; split; [|right; split; [reflexivity|]];
      [chain_trace | constructor]. }
  destruct (Nat.eqb_spec n 4) as [->|Hn]; cbn [negb].
  2:{ step_log. eexists _, _; split; [|right; split; [reflexivity|]];
        [chain_trace | constructor; assumption]. }
  step_log. step_read payload m err.
  destruct err as [e|].
  { step_log. eexists _, _; split; [|right; split; [reflexivity|]];
      [chain_trace | constructor]. }
  destruct (Z.eqb_spec (Z.of_nat m) (BigEndian.Uint32 size)) as [Hm|Hm];
    cbn [negb].
  2:{ step_log. eexists _, _; split; [|right; split; [reflexivity|]];
        [chain_trace | constructor; assumption]. }
  assert (Hpl : m = length payload).
  { rewrite Hlen0, length_make, <- Hm. symmetry. apply Nat2Z.id. }
  subst m.
  step_log.
  destruct (Request_Decode payload) as [e|req] eqn:ED.
  { step_log. eexists _, _; split; [|right; split; [reflexivity|]];
      [chain_trace | econstructor; eassumption]. }
  step_log. step_log.
  destruct (HandleRequest req) as [e|resp] eqn:EH.
  { step_log. eexists _, _; split; [|right; split; [reflexivity|]];
      [chain_trace | eapply server_aborted_handle; eassumption]. }
  step_log. cbn [Encode_ResponseHeaderStruct ResponseHeaderStruct.Length
                 ResponseHeaderStruct.CorrelationID].
  step_write k1 err1. step_write k2 err2.
  eexists _, _; split; [|left; split; [reflexivity|]].
  - chain_trace.
  - constructor; auto.
Qed.

Lemma server_for_loop_shape (fuel : nat) (w : World) :
  exists exs,
    Forall (server_exchange Request_Decode HandleRequest) exs
    /\ match for_loop (server.iteration Request_Decode HandleRequest) fuel w with
       | Returned w' =>
           exists last,
             server_aborted Request_Decode HandleRequest last
             /\ trace w' = trace w ++ concat exs ++ last
       | Running w' => trace w' = trace w ++ concat exs
       end.
Proof.
  revert w. induction fuel as [|fuel IH]; intros w; cbn [for_loop].
  - exists []. split; [constructor|]. cbn. rewrite app_nil_r. reflexivity.
  - destruct (server_iteration_shape w)
      as (evs & w1 & Ht & [(E & Hx)|(E & Ha)]); rewrite E.
    + destruct (IH w1) as (exs & Hall & H).
      exists (evs :: exs). split; [constructor; assumption|].
      cbn [concat].
      destruct (for_loop (server.iteration Request_Decode HandleRequest)
                         fuel w1) as [w2|w2].
      * destruct H as (last & Hl & H). exists last. split; [exact Hl|].
        rewrite H, Ht, <- !app_assoc. reflexivity.
      * rewrite H, Ht, <- !app_assoc. reflexivity.
    + exists []. split; [constructor|]. exists evs. split; [exact Ha|].
      exact Ht.
Qed.

(** X9.  The calls of [server.run] on one connection are a sequence of
    complete turns, each the read of a length, the read of the payload
    and two writes (the header with the request's correlation
    identifier, then the body), followed by one turn that ends in a
    failed or short read or in a request that cannot be decoded or
    handled, and the close.  No turn ends because of a write. *)
Theorem server_run_shape (fuel : nat) (conn : World) :
  exists exs,
    Forall (server_exchange Request_Decode HandleRequest) exs
    /\ match server.run Request_Decode HandleRequest fuel conn with
       | Returned w' =>
           exists last,
             server_aborted Request_Decode HandleRequest last
             /\ trace w' = trace conn ++ concat exs ++ last ++ [EvClose]
       | Running w' => trace w' = trace conn ++ concat exs
       end.
Proof.
  unfold server.run, with_deferred_Close.
  destruct (server_for_loop_shape fuel conn) as (exs & Hall & H).
  exists exs. split; [exact Hall|].
  destruct (for_loop (server.iteration Request_Decode HandleRequest) fuel conn)
    as [w1|w1].
  - destruct H as (last & Hl & H). exists last. split; [exact Hl|].
    rewrite trace_conn_Close, H, <- !app_assoc. reflexivity.
  - exact H.
Qed.

Lemma server_iteration_frame_fails (w : World) (size payload : list byte)
      (rest : list ReadReply) (msg : string) :
  delivers_frame w size payload rest ->
  (exists e, Request_Decode payload = inl e /\ msg = "Failed to parse request")
  \/ (exists req e, Request_Decode payload = inr req
                    /\ HandleRequest req = inl e
                    /\ msg = "Failed to handle request") ->
  exists w',
    server.iteration Request_Decode HandleRequest w = (Ret, w')
    /\ incoming w' = rest
    /\ trace w' = trace w ++ [ EvRead size 4 None;
                               EvRead payload (length payload) None ]
    /\ error_records (slog w') = error_records (slog w) ++ [msg].
Proof.
  intros Hframe Hfail. unfold server.iteration.
  exec_frame_reads w Hframe.
  destruct Hfail as [(e & Hd & ->)|(req & e & Hd & Hh & ->)]; rewrite Hd;
    [|rewrite Hh];
    (eexists; split; [reflexivity|split; [reflexivity|split]];
     [cbn [trace]; rewrite <- !app_assoc; reflexivity|solve_records]).
Qed.

(** X10.  When the payload cannot be decoded, or the metadata manager
    returns an error, [server.run] leaves the loop with one record at
    error level ("Failed to parse request", "Failed to handle
    request"): nothing is written for the request, later frames stay
    unread, the connection is closed. *)
Theorem server_request_failure_closes_without_response
        (conn : World) (size payload : list byte) (rest : list ReadReply)
        (msg : string) (fuel : nat) :
  delivers_frame conn size payload rest ->
  (exists e, Request_Decode payload = inl e /\ msg = "Failed to parse request")
  \/ (exists req e, Request_Decode payload = inr req
                    /\ HandleRequest req = inl e
                    /\ msg = "Failed to handle request") ->
  exists w',
    server.run Request_Decode HandleRequest (S fuel) conn = Returned w'
    /\ trace w' = trace conn ++ [ EvRead size 4 None;
                                  EvRead payload (length payload) None;
                                  EvClose ]
    /\ written (trace w') = written (trace conn)
    /\ incoming w' = rest
    /\ error_records (slog w') = error_records (slog conn) ++ [msg].
Proof.
  intros Hframe Hfail.
  destruct (server_iteration_frame_fails conn size payload rest msg
              Hframe Hfail) as (w1 & E & Hi & Ht & Hl).
  exists (conn_Close w1).
  assert (Htr : trace (conn_Close w1)
                = trace conn ++ [ EvRead size 4 None;
                                  EvRead payload (length payload) None;
                                  EvClose ])
    by (rewrite trace_conn_Close, Ht, <- app_assoc; reflexivity).
  split; [|split; [exact Htr|split; [|split]]].
  - unfold server.run. apply with_deferred_Close_Ret. exact E.
  - rewrite Htr, written_app. cbn [written]. apply app_nil_r.
  - exact Hi.
  - exact Hl.
Qed.
End ServerRun.

Section ServerMetadataManager.
Import sarama.
Variable Request_Decode : list byte -> result Request.t.
Variable encodeBody : ProtocolBody -> result (list byte).

(** X11.  [server.run] with the metadata manager of its package has no
    dispatch: every request that decodes, whatever its API key and
    body, is answered with the header for its correlation identifier
    and the encoding of the one fixed ApiVersions body, and the loop
    goes on to the next frame. *)
Theorem server_answers_every_request
        (conn : World) (size payload : list byte) (rest : list ReadReply)
        (req : Request.t) (body : list byte) :
  delivers_frame conn size payload rest ->
  Request_Decode payload = inr req ->
  encodeBody (ApiVersionsResponseBody metadataManager_body) = inr body ->
  exists w',
    server.iteration Request_Decode (server.HandleRequest encodeBody) conn
    = (Go tt, w')
    /\ incoming w' = rest
    /\ written (trace w')
       = written (trace conn)
         ++ putInt32 (int32 (Z.of_nat (length body) + 8))
         ++ putInt32 (Request.CorrelationID req)
         ++ body.
Proof.
  intros Hframe Hdec Henc.
  destruct (server_iteration_frame Request_Decode
              (server.HandleRequest encodeBody) conn size payload rest
              req body Hframe Hdec Henc)
    as (w' & E & Hi & _ & Ht).
  exists w'. split; [exact E|]. split; [exact Hi|].
  rewrite Ht, written_app. cbn [written].
  rewrite app_nil_r, <- !app_assoc. reflexivity.
Qed.
End ServerMetadataManager.

(** A connection with one request that the stand-in codec cannot
    decode. *)
Lemma server_request_failure_closes_without_response_witness :
  exists w',
    server.run demo.Request_Decode (server.HandleRequest demo.encodeBody) 1
      (connect [ mkReadReply [x00; x00; x00; x02] None;
                 mkReadReply [x12; x00] None ] [])
    = Returned w'
    /\ written (trace w') = []
    /\ error_records (slog w') = ["Failed to parse request"].
Proof.
  destruct (server_request_failure_closes_without_response
              demo.Request_Decode (server.HandleRequest demo.encodeBody)
              (connect [ mkReadReply [x00; x00; x00; x02] None;
                         mkReadReply [x12; x00] None ] [])
              [x00; x00; x00; x02] [x12; x00] [] "Failed to parse request" 0)
    as (w' & E & _ & Hw & _ & Hl).
  - repeat split.
  - left. eexists. split; reflexivity.
  - exists w'. split; [exact E|]. split; [exact Hw|exact Hl].
Defined.

(** A request with key 0 gets the ApiVersions answer from
    [server.run]. *)
Lemma server_answers_every_request_witness :
  exists w',
    server.iteration demo.Request_Decode (server.HandleRequest demo.encodeBody)
                     (connect demo.produceFrame [])
    = (Go tt, w')
    /\ written (trace w')
       = [x00; x00; x00; x0a; x00; x00; x00; x02; x00; x12].
Proof.
  destruct (server_answers_every_request demo.Request_Decode demo.encodeBody
              (connect demo.produceFrame [])
              [x00; x00; x00; x05] [x00; x00; x00; x00; x02] []
              (sarama.Request.mk 2 "demo" (sarama.OtherBody 0 0))
              [x00; x12])
    as (w' & E & _ & Hw).
  - repeat split.
  - reflexivity.
  - reflexivity.
  - exists w'. split; [exact E|]. rewrite Hw. reflexivity.
Defined.

(** ** The life of a [TCPServer] *)

Section ServerLife.
Import server.

Lemma handled_connections_app (a b : list ServerEvent) :
  handled_connections (a ++ b)
  = handled_connections a ++ handled_connections b.
Proof.
  induction a as [|[r|c|lvl msg] a IH]; cbn [app handled_connections];
    rewrite ?IH; reflexivity.
Qed.

Lemma server_error_records_app (a b : list ServerEvent) :
  server_error_records (a ++ b)
  = server_error_records a ++ server_error_records b.
Proof.
  induction a as [|[r|c|[|] msg] a IH]; cbn [app server_error_records];
    rewrite ?IH; reflexivity.
Qed.

Lemma accept_iteration_conn (w : ServerWorld) (c : ConnId)
      (rest : list (result ConnId)) :
  lclosed (socket w) = false ->
  backlog (socket w) = inr c :: rest ->
  accept_iteration w
  = (Go tt,
     mkServerWorld (mkListener rest false) (s_l w)
       (strace w ++ [ EvAccept (inr c);
                      EvLog LevelDebug "Accepted new TCP connection";
                      EvHandleConnection c ])).
Proof.
  intros Hopen Hb.
  unfold accept_iteration, bind, l_Accept, srv_log, go_HandleConnection, emit.
  rewrite Hopen, Hb. cbn [socket s_l strace].
  rewrite <- !app_assoc. reflexivity.
Qed.

Lemma accept_loop_connections (conns : list ConnId) :
  forall (w : ServerWorld) (tail : list (result ConnId)) (fuel : nat),
    lclosed (socket w) = false ->
    backlog (socket w) = map inr conns ++ tail ->
    exists w1,
      accept_loop (length conns + fuel) w = accept_loop fuel w1
      /\ socket w1 = mkListener tail false
      /\ s_l w1 = s_l w
      /\ handled_connections (strace w1)
         = handled_connections (strace w) ++ conns
      /\ server_error_records (strace w1) = server_error_records (strace w).
Proof.
  induction conns as [|c conns IH]; intros w tail fuel Hopen Hb.
  - exists w. cbn [length Nat.add map app] in *.
    split; [reflexivity|]. split.
    + destruct (socket w) as [b cl]; cbn in *; subst; reflexivity.
    + rewrite app_nil_r. auto.
  - cbn [map app] in Hb. cbn [length Nat.add].
    unfold accept_loop at 1. cbn [for_loop].
    rewrite (accept_iteration_conn w c _ Hopen Hb).
    fold (accept_loop (length conns + fuel)).
    destruct (IH (mkServerWorld (mkListener (map inr conns ++ tail) false)
                    (s_l w)
                    (strace w ++ [ EvAccept (inr c);
                                   EvLog LevelDebug "Accepted new TCP connection";
                                   EvHandleConnection c ]))
                 tail fuel eq_refl eq_refl)
      as (w1 & E & Hs & Hl & Hh & He).
    exists w1. split; [exact E|]. split; [exact Hs|]. split; [exact Hl|].
    cbn [strace] in Hh, He.
    rewrite handled_connections_app in Hh.
    rewrite server_error_records_app in He.
    cbn in Hh, He. rewrite app_nil_r in He. rewrite <- app_assoc in Hh.
    split; assumption.
Qed.

(** X12.  The accept loop hands every connection it accepts to a
    handler of its own, in the order of arrival; the first [Accept]
    that fails ends the loop, with a record at error level unless the
    error is the listener-closed condition, and whatever waits behind
    the failure is never accepted. *)
Theorem accept_loop_serves_in_order
        (w : ServerWorld) (conns : list ConnId) (err : error)
        (rest : list (result ConnId)) (fuel : nat) :
  lclosed (socket w) = false ->
  backlog (socket w) = map inr conns ++ inl err :: rest ->
  (length conns < fuel)%nat ->
  exists w',
    accept_loop fuel w = Returned w'
    /\ handled_connections (strace w')
       = handled_connections (strace w) ++ conns
    /\ backlog (socket w') = rest
    /\ server_error_records (strace w')
       = server_error_records (strace w)
         ++ (if errors_Is_ErrClosed err then []
             else ["Failed to accept TCP connection"]).
Proof.
  intros Hopen Hb Hfuel.
  replace fuel with (length conns + S (fuel - S (length conns)))%nat by lia.
  destruct (accept_loop_connections conns w (inl err :: rest)
              (S (fuel - S (length conns))) Hopen Hb)
    as (w1 & E & Hs & _ & Hh & He).
  rewrite E. unfold accept_loop. cbn [for_loop].
  unfold accept_iteration, bind, l_Accept, srv_log, emit.
  rewrite Hs. cbn [lclosed backlog socket s_l strace].
  destruct (errors_Is_ErrClosed err);
    (eexists; split; [reflexivity|]; cbn [strace socket backlog];
     rewrite !handled_connections_app, !server_error_records_app, Hh, He;
     cbn; rewrite ?app_nil_r; repeat split).
Qed.

(** X13.  While the listener is open and every [Accept] brings a
    connection the loop does not end: after the last connection it is
    waiting in [Accept], with all of them handed to handlers in order
    and no record at error level. *)
Theorem accept_loop_waits_for_connections
        (w : ServerWorld) (conns : list ConnId) (fuel : nat) :
  lclosed (socket w) = false ->
  backlog (socket w) = map inr conns ->
  (length conns < fuel)%nat ->
  exists w',
    accept_loop fuel w = Running w'
    /\ socket w' = mkListener [] false
    /\ s_l w' = s_l w
    /\ handled_connections (strace w')
       = handled_connections (strace w) ++ conns
    /\ server_error_records (strace w') = server_error_records (strace w).
Proof.
  intros Hopen Hb Hfuel.
  replace fuel with (length conns + S (fuel - S (length conns)))%nat by lia.
  rewrite <- (app_nil_r (map inr conns)) in Hb.
  destruct (accept_loop_connections conns w []
              (S (fuel - S (length conns))) Hopen Hb)
    as (w1 & E & Hs & Hl & Hh & He).
  rewrite E. unfold accept_loop. cbn [for_loop].
  unfold accept_iteration, bind, l_Accept.
  rewrite Hs. cbn [lclosed backlog].
  exists w1. repeat split; assumption.
Qed.

Lemma Stop_running (w : ServerWorld) :
  s_l w = true ->
  lclosed (socket w) = false ->
  Stop w
  = (None,
     mkServerWorld (mkListener (backlog (socket w)) true) false
       (strace w ++ [EvLog LevelDebug "Stopping TCP server"])).
Proof.
  intros Hl Hopen. unfold Stop, l_Close, emit. cbn [s_l socket strace].
  rewrite Hl, Hopen. reflexivity.
Qed.

Lemma accept_loop_closed (w : ServerWorld) (fuel : nat) :
  lclosed (socket w) = true ->
  accept_loop (S fuel) w
  = Returned
      (mkServerWorld (socket w) (s_l w)
         (strace w
          ++ [ EvAccept (inl (net_OpError "accept" net_ErrClosed));
               EvLog LevelDebug
                     "Connection closed, can't accept new connections" ])).
Proof.
  intros Hc. unfold accept_loop. cbn [for_loop].
  unfold accept_iteration, bind, l_Accept, srv_log, emit. rewrite Hc.
  cbn [errors_Is_ErrClosed socket s_l strace].
  rewrite <- app_assoc. reflexivity.
Qed.

(** X14.  [Stop] on a running server returns nil, and the accept loop
    then ends at its next [Accept] without a record at error level;
    connections that were still waiting to be accepted are not handed
    to a handler. *)
Theorem Stop_ends_accept_loop (w : ServerWorld) (fuel : nat) :
  s_l w = true ->
  lclosed (socket w) = false ->
  exists w1 w2,
    Stop w = (None, w1)
    /\ accept_loop (S fuel) w1 = Returned w2
    /\ s_l w2 = false
    /\ backlog (socket w2) = backlog (socket w)
    /\ handled_connections (strace w2) = handled_connections (strace w)
    /\ server_error_records (strace w2) = server_error_records (strace w).
Proof.
  intros Hl Hopen. eexists _, _.
  split; [apply Stop_running; assumption|].
  split; [apply accept_loop_closed; reflexivity|].
  cbn [s_l socket backlog strace].
  rewrite !handled_connections_app, !server_error_records_app. cbn.
  rewrite !app_nil_r. repeat split.
Qed.

(** X15.  [Stop] on a server that is not running (never started, or
    stopped before) does nothing but make two records at debug level
    and returns nil; so a second [Stop] after a first one returns nil
    as well and leaves the closed listener alone. *)
Theorem Stop_twice (w : ServerWorld) :
  (s_l w = false ->
   exists w1,
     Stop w = (None, w1) /\ socket w1 = socket w /\ s_l w1 = false
     /\ server_error_records (strace w1) = server_error_records (strace w))
  /\ (s_l w = true ->
      lclosed (socket w) = false ->
      exists w1 w2,
        Stop w = (None, w1) /\ Stop w1 = (None, w2)
        /\ lclosed (socket w1) = true
        /\ socket w2 = socket w1 /\ s_l w2 = false
        /\ server_error_records (strace w2)
           = server_error_records (strace w)).
Proof.
  assert (Hidle : forall w0, s_l w0 = false ->
            exists w1,
              Stop w0 = (None, w1) /\ socket w1 = socket w0 /\ s_l w1 = false
              /\ server_error_records (strace w1)
                 = server_error_records (strace w0)).
  { intros w0 H0. unfold Stop, emit. cbn [s_l]. rewrite H0. cbn [negb].
    eexists. split; [reflexivity|]. cbn [socket s_l strace].
    rewrite !server_error_records_app. cbn. rewrite !app_nil_r.
    repeat split; try assumption. }
  split; [apply Hidle|].
  intros Hl Hopen. rewrite (Stop_running w Hl Hopen).
  destruct (Hidle (mkServerWorld (mkListener (backlog (socket w)) true) false
                     (strace w ++ [EvLog LevelDebug "Stopping TCP server"]))
                  eq_refl)
    as (w2 & E & Hs & Hl2 & He).
  eexists _, w2. split; [reflexivity|]. split; [exact E|].
  split; [reflexivity|]. split; [exact Hs|]. split; [exact Hl2|].
  rewrite He. cbn [strace]. rewrite server_error_records_app. cbn.
  apply app_nil_r.
Qed.

(** X16.  When closing the listener fails, [Stop] returns that error
    with one record at error level and keeps [s.l], so that the server
    still counts as running. *)
Theorem Stop_reports_failed_Close (w : ServerWorld) :
  s_l w = true ->
  lclosed (socket w) = true ->
  exists err w1,
    Stop w = (Some err, w1)
    /\ errors_Is_ErrClosed err = true
    /\ s_l w1 = true
    /\ socket w1 = socket w
    /\ server_error_records (strace w1)
       = server_error_records (strace w) ++ ["Failed to stop TCP server"].
Proof.
  intros Hl Hc. unfold Stop, l_Close, emit. cbn [s_l socket strace].
  rewrite Hl, Hc. cbn [negb].
  eexists _, _. split; [reflexivity|]. split; [reflexivity|].
  cbn [s_l socket strace]. rewrite !server_error_records_app. cbn.
  rewrite !app_nil_r. repeat split; try assumption.
Qed.

(** X17.  A [Start] whose [net.Listen] fails returns that error with
    one record at error level and launches no accepting goroutine; the
    listener and [s.l] stay as they were, so that a later [Stop] does
    what it would have done without this [Start]. *)
Theorem failed_Start_changes_nothing (err : error) (w : ServerWorld) :
  exists w1,
    TCPServer.Start (inl err) w = (Some err, w1, false)
    /\ socket w1 = socket w
    /\ s_l w1 = s_l w
    /\ server_error_records (strace w1)
       = server_error_records (strace w) ++ ["Failed to start TCP server: %s"]
    /\ fst (Stop w1) = fst (Stop w)
    /\ socket (snd (Stop w1)) = socket (snd (Stop w))
    /\ s_l (snd (Stop w1)) = s_l (snd (Stop w)).
Proof.
  eexists. split; [reflexivity|]. split; [reflexivity|].
  split; [reflexivity|]. split.
  - unfold emit; cbn [strace]. rewrite !server_error_records_app. cbn.
    rewrite app_nil_r. reflexivity.
  - unfold Stop, l_Close, emit. cbn [s_l socket strace].
    destruct (s_l w); cbn [negb]; [|repeat split].
    destruct (lclosed (socket w)); repeat split.
Qed.

(** X18.  The whole life of a server: [Start] on a listener that
    opens, the accept loop hands the waiting clients to handlers in
    order and then waits; [Stop] returns nil, the loop ends, and no
    record at error level was made on the way. *)
Theorem Start_serve_Stop
        (conns : list ConnId) (fuel fuel' : nat) :
  (length conns < fuel)%nat ->
  exists w1 w2 w3 w4,
    TCPServer.Start (inr (mkListener (map inr conns) false))
                    TCPServer.NewTCPServer
    = (None, w1, true)
    /\ accept_loop fuel w1 = Running w2
    /\ Stop w2 = (None, w3)
    /\ accept_loop (S fuel') w3 = Returned w4
    /\ handled_connections (strace w4) = conns
    /\ server_error_records (strace w4) = []
    /\ s_l w4 = false
    /\ lclosed (socket w4) = true.
Proof.
  intros Hfuel.
  set (w1 := mkServerWorld (mkListener (map inr conns) false) true
               [ EvLog LevelDebug "Starting TCP server";
                 EvLog LevelDebug "TCP server listening" ]).
  destruct (accept_loop_connections conns w1 [] (S (fuel - S (length conns)))
              eq_refl (eq_sym (app_nil_r _)))
    as (w2 & E & Hs & Hl & Hh & He).
  assert (Hrun : accept_loop fuel w1 = Running w2).
  { replace fuel with (length conns + S (fuel - S (length conns)))%nat by lia.
    rewrite E. unfold accept_loop. cbn [for_loop].
    unfold accept_iteration, bind, l_Accept. rewrite Hs. reflexivity. }
  assert (Hl2 : s_l w2 = true) by (rewrite Hl; reflexivity).
  assert (Hopen : lclosed (socket w2) = false) by (rewrite Hs; reflexivity).
  eexists w1, w2, _, _.
  split; [reflexivity|]. split; [exact Hrun|].
  split; [apply Stop_running; assumption|].
  split; [apply accept_loop_closed; reflexivity|].
  cbn [s_l socket lclosed strace].
  rewrite !handled_connections_app, !server_error_records_app, Hh, He.
  cbn. rewrite !app_nil_r. repeat split.
Qed.
End ServerLife.

(** Two clients, a failing accept, a third client left waiting. *)
Lemma accept_loop_serves_in_order_witness :
  exists w',
    server.accept_loop 3
      (server.mkServerWorld
         (server.mkListener
            [inr 1%nat; inr 2%nat; inl demo_server.tooManyOpenFiles;
             inr 3%nat] false) true [])
    = Returned w'
    /\ handled_connections (server.strace w') = [1%nat; 2%nat]
    /\ server.backlog (server.socket w') = [inr 3%nat].
Proof.
  destruct (accept_loop_serves_in_order
              (server.mkServerWorld
                 (server.mkListener
                    [inr 1%nat; inr 2%nat; inl demo_server.tooManyOpenFiles;
                     inr 3%nat] false) true [])
              [1%nat; 2%nat] demo_server.tooManyOpenFiles [inr 3%nat] 3
              eq_refl eq_refl)
    as (w' & E & Hh & Hb & _).
  - cbn. lia.
  - exists w'. split; [exact E|]. split; [exact Hh|exact Hb].
Defined.

(** Three clients and then silence. *)
Lemma accept_loop_waits_for_connections_witness :
  exists w',
    server.accept_loop 10 demo2.threeClients = Running w'
    /\ handled_connections (server.strace w') = [1%nat; 2%nat; 3%nat].
Proof.
  destruct (accept_loop_waits_for_connections demo2.threeClients
              [1%nat; 2%nat; 3%nat] 10 eq_refl eq_refl)
    as (w' & E & _ & _ & Hh & _).
  - cbn. lia.
  - exists w'. split; [exact E|exact Hh].
Defined.

(** [Stop] with three clients not yet accepted. *)
Lemma Stop_ends_accept_loop_witness :
  exists w1 w2,
    server.Stop demo2.threeClients = (None, w1)
    /\ server.accept_loop 1 w1 = Returned w2
    /\ handled_connections (server.strace w2) = [].
Proof.
  destruct (Stop_ends_accept_loop demo2.threeClients 0 eq_refl eq_refl)
    as (w1 & w2 & E1 & E2 & _ & _ & Hh & _).
  exists w1, w2. split; [exact E1|]. split; [exact E2|exact Hh].
Defined.

Lemma Stop_twice_witness :
  exists w1 w2,
    server.Stop demo2.threeClients = (None, w1)
    /\ server.Stop w1 = (None, w2)
    /\ server.socket w2 = server.socket w1.
Proof.
  destruct (proj2 (Stop_twice demo2.threeClients) eq_refl eq_refl)
    as (w1 & w2 & E1 & E2 & _ & Hs & _).
  exists w1, w2. split; [exact E1|]. split; [exact E2|exact Hs].
Defined.

(** A server whose listener was closed behind its back. *)
Lemma Stop_reports_failed_Close_witness :
  exists err w1,
    server.Stop (server.mkServerWorld (server.mkListener [] true) true [])
    = (Some err, w1)
    /\ server.s_l w1 = true.
Proof.
  destruct (Stop_reports_failed_Close
              (server.mkServerWorld (server.mkListener [] true) true [])
              eq_refl eq_refl)
    as (err & w1 & E & _ & Hl & _).
  exists err, w1. split; [exact E|exact Hl].
Defined.

Lemma Start_serve_Stop_witness :
  exists w4,
    handled_connections (server.strace w4) = [4%nat; 5%nat]
    /\ server_error_records (server.strace w4) = []
    /\ server.lclosed (server.socket w4) = true.
Proof.
  destruct (Start_serve_Stop [4%nat; 5%nat] 3 0)
    as (w1 & w2 & w3 & w4 & _ & _ & _ & _ & Hh & He & _ & Hc).
  - cbn. lia.
  - exists w4. split; [exact Hh|]. split; [exact He|exact Hc].
Defined.

(** ** The connection handler of the server tests *)

Lemma skipn_repeat_x00 (n k : nat) :
  skipn n (repeat x00 k) = repeat x00 (k - n).
Proof.
  revert n. induction k as [|k IH]; intros [|n]; cbn; auto.
Qed.

Lemma copy_make_padded (k : nat) (c : list byte) :
  (length c <= k)%nat -> copy (make k) c = c ++ repeat x00 (k - length c).
Proof.
  intros Hle. unfold copy, make. rewrite repeat_length.
  rewrite firstn_all2 by exact Hle. rewrite skipn_repeat_x00. reflexivity.
Qed.

Lemma padded_full (chunks : list (list byte)) :
  Forall (fun c => length c = server_test.MESSAGE_SIZE) chunks ->
  map padded chunks = chunks.
Proof.
  induction 1 as [|c cs Hlen _ IH]; [reflexivity|].
  cbn [map]. rewrite IH. unfold padded. rewrite Hlen, Nat.sub_diag.
  cbn [repeat]. rewrite app_nil_r. reflexivity.
Qed.

Lemma server_test_loop_messages (chunks : list (list byte)) :
  Forall (fun c => (0 < length c <= server_test.MESSAGE_SIZE)%nat) chunks ->
  forall (w : World) (messages : list (list byte)) (fuel : nat),
    incoming w = map (fun c => mkReadReply c None) chunks ->
    (length chunks < fuel)%nat ->
    exists w',
      server_test.loop fuel w messages
      = (Returned w', messages ++ map padded chunks)
      /\ count_Close (trace w') = count_Close (trace w)
      /\ count_reads (trace w')
         = (count_reads (trace w) + length chunks + 1)%nat
      /\ error_records (slog w') = error_records (slog w).
Proof.
  induction 1 as [|c chunks Hc Hall IH]; intros w messages fuel Hinc Hfuel;
    (destruct fuel as [|fuel]; [cbn [length] in Hfuel; lia|]);
    destruct w as [inc wr tr sl]; cbn [incoming] in Hinc; subst inc;
    cbn [server_test.loop map];
    unfold server_test.iteration, bind, slog_Debug, slog_Error, conn_Read,
      record, return_, ret;
    cbn [incoming wreplies trace slog rdata rerr is_EOF].
  - eexists. split; [rewrite app_nil_r; reflexivity|].
    cbn [trace slog]. rewrite count_Close_app.
    destruct (counts_app tr [EvRead (make server_test.MESSAGE_SIZE) 0
                                    (Some io_EOF)]) as [-> _].
    split; [cbn; lia|]. split; [cbn; lia|].
    rewrite error_records_app. apply app_nil_r.
  - rewrite length_make.
    assert (Hn : (Nat.min server_test.MESSAGE_SIZE (length c) =? 0)%nat = false)
      by (apply Nat.eqb_neq; unfold server_test.MESSAGE_SIZE in *; lia).
    rewrite Hn.
    rewrite (copy_make_padded _ c) by lia. fold (padded c).
    match goal with
    | |- context [server_test.loop fuel ?w1 ?m1] =>
        destruct (IH w1 m1 fuel eq_refl) as (w' & E & Hcl & Hr & Hl);
          [cbn [length] in Hfuel; lia|]
    end.
    exists w'. rewrite E, <- app_assoc. split; [reflexivity|].
    rewrite Hcl, Hr, Hl. cbn [trace slog].
    rewrite count_Close_app, error_records_app.
    match goal with
    | |- context [count_reads (tr ++ ?l)] =>
        destruct (counts_app tr l) as [-> _]
    end.
    cbn. rewrite app_nil_r. repeat split; lia.
Qed.

(** X19.  [MockConnectionHandler.HandleConnection] hands the whole
    buffer of [MESSAGE_SIZE] bytes to the message handler after every
    read that brought something: the messages come in the order of the
    reads, each exactly 9 bytes long, a shorter read padded with zero
    bytes, a read of 9 bytes as it is.  At the end of the stream the
    handler returns with no record at error level and one close. *)
Theorem mock_handler_messages (chunks : list (list byte)) (fuel : nat) :
  Forall (fun c => (0 < length c <= server_test.MESSAGE_SIZE)%nat) chunks ->
  (length chunks < fuel)%nat ->
  exists w',
    server_test.HandleConnection fuel
      (connect (map (fun c => mkReadReply c None) chunks) [])
    = (Returned w', map padded chunks)
    /\ Forall (fun m => length m = server_test.MESSAGE_SIZE)
              (map padded chunks)
    /\ (Forall (fun c => length c = server_test.MESSAGE_SIZE) chunks ->
        map padded chunks = chunks)
    /\ count_reads (trace w') = S (length chunks)
    /\ count_Close (trace w') = 1%nat
    /\ error_records (slog w') = [].
Proof.
  intros Hall Hfuel.
  destruct (server_test_loop_messages chunks Hall
              (connect (map (fun c => mkReadReply c None) chunks) []) []
              fuel eq_refl Hfuel)
    as (w1 & E & Hc & Hr & Hl).
  exists (conn_Close w1). unfold server_test.HandleConnection. rewrite E.
  split; [reflexivity|]. split; [|split; [|split; [|split]]].
  - apply Forall_map. apply Forall_impl with (2 := Hall).
    intros c Hlen. unfold padded. rewrite length_app, repeat_length. lia.
  - apply padded_full.
  - rewrite trace_conn_Close.
    destruct (counts_app (trace w1) [EvClose]) as [-> _].
    rewrite Hr. cbn. lia.
  - rewrite trace_conn_Close, count_Close_app, Hc. reflexivity.
  - exact Hl.
Qed.

(** The messages of [TestStartReceiveStop], and a short one. *)
Lemma mock_handler_messages_witness :
  exists w',
    server_test.HandleConnection 3
      (connect [ mkReadReply [x4d; x65; x73; x73; x61; x67; x65; x20; x30] None;
                 mkReadReply [x4d; x65] None ] [])
    = (Returned w',
       [ [x4d; x65; x73; x73; x61; x67; x65; x20; x30];
         [x4d; x65; x00; x00; x00; x00; x00; x00; x00] ]).
Proof.
  destruct (mock_handler_messages
              [ [x4d; x65; x73; x73; x61; x67; x65; x20; x30]; [x4d; x65] ] 3)
    as (w' & E & _).
  - repeat constructor.
  - cbn. lia.
  - exists w'. exact E.
Defined.
